(** * Minibatch / momentum training loops of the two CNN notebooks

    A shallow embedding of the control flow and of the numerical update
    rule of the Theano notebook ("Deep Learning Convolution in Theano")
    and of the TensorFlow notebook, together with the helper functions both
    share ([y2indicator], [error_rate], [get_normalized_data]) and the
    train / holdout split.

    Conventions.
    - NumPy arrays are lists; a 2-D array is the list of its rows.
    - Python integers that the code only uses as sizes and positions are
      [nat]; labels are [Z], or [float32] as they come out of the data
      matrix, and [astype(np.int32)] is written out for both.
    - The data matrix and its normalisation are in single precision
      ([F32.float32], IEEE 754 binary32 with rounding to nearest). The
      tensors of the network, the cost and the update rule are over the
      real numbers [R]: there the arithmetic is exact, and an outcome that
      is not a number is written [NotFinite].
    - Python's true division of two integers is a rational ([Q]) and
      [int(...)] truncates it towards zero.
    - A Python exception is [None] in the [option] monad.
    - Random shuffles, the gradient, the cost and the arg-max prediction come
      from the numerical libraries: they are the fields of the classes [Rng]
      and [Graph], and what the proofs need of them is in [RngLaws] and
      [GraphLaws]. *)

From Stdlib Require Import ZArith QArith Reals Lia Lra List Permutation.
From Stdlib Require Import SpecFloat.
From stdpp Require Import base option list.

Close Scope Q_scope.
Close Scope R_scope.
Open Scope nat_scope.

(** ** Python and NumPy primitives *)

Module Py.

(** [l[a:b]] for [0 <= a] and [0 <= b]: the positions [a <= i < b] that
    exist in [l]; empty when [b <= a]. *)
Definition slice {A} (l : list A) (a b : nat) : list A :=
  take (b - a) (drop a l).

(** [l[:-h]] for [h > 0]: everything but the last [h] elements (empty when
    [l] has at most [h] elements). *)
Definition slice_until_last {A} (l : list A) (h : nat) : list A :=
  take (length l - h) l.

(** [l[-h:]] for [h > 0]: the last [h] elements (all of [l] when it has at
    most [h] elements). *)
Definition slice_from_last {A} (l : list A) (h : nat) : list A :=
  drop (length l - h) l.

(** [a / b] on two integers (Python 3): the exact quotient, and
    [ZeroDivisionError] for [b = 0]. *)
Definition truediv (a b : Z) : option Q :=
  if decide (b = 0%Z) then None else Some (inject_Z a / inject_Z b)%Q.

(** [int(q)]: truncation towards zero. *)
Definition int (q : Q) : Z := Z.quot (Qnum q) (Z.pos (Qden q)).

(** [range(n)]: empty for [n <= 0]. *)
Definition range (n : Z) : list nat := seq 0 (Z.to_nat n).

(** A [for] loop whose body may raise: the state is threaded from left to
    right and the first exception aborts the loop. *)
Fixpoint for_each {S I} (body : I → S → option S) (js : list I) (s : S)
  : option S :=
  match js with
  | [] => Some s
  | i :: js' => s' ← body i s; for_each body js' s'
  end.

(** [a % b] on non-negative integers, [ZeroDivisionError] for [b = 0]. *)
Definition mod_ (a b : nat) : option nat :=
  if decide (b = 0) then None else Some (a mod b).

(** Index normalisation of [a[c]] on an axis of length [len]: a negative
    index counts from the end, anything outside [-len <= c < len] is an
    [IndexError]. *)
Definition index (len : nat) (c : Z) : option nat :=
  if decide (0 ≤ c < Z.of_nat len)%Z then Some (Z.to_nat c)
  else if decide (- Z.of_nat len ≤ c < 0)%Z then Some (Z.to_nat (c + Z.of_nat len))
  else None.

End Py.

(** ** Single-precision numbers

    The frame is cast with [astype(np.float32)], and NumPy computes the mean
    and the standard deviation of its columns in that type. A [float32] is
    an IEEE 754 binary32 number (24 bits of precision, infinities at the
    exponent 128), with the operations of the Standard Library's [SpecFloat],
    which round to the nearest number, ties to even. *)

Module F32.

Definition prec : Z := 24.
Definition emax : Z := 128.

Definition float32 : Type := spec_float.

(** [+], [-], [*], [/] and [np.sqrt] on two numbers of the type. *)
Definition add : float32 → float32 → float32 := SFadd prec emax.
Definition sub : float32 → float32 → float32 := SFsub prec emax.
Definition mul : float32 → float32 → float32 := SFmul prec emax.
Definition sqrt : float32 → float32 := SFsqrt prec emax.

(** [==]: the two zeros are equal, [nan] equals nothing. *)
Definition eqb : float32 → float32 → bool := SFeqb.

Definition zero : float32 := S754_zero false.

(** An integer as a [float32], rounded when it has more than 24 bits. *)
Definition of_Z (n : Z) : float32 := binary_normalize prec emax n 0 false.



(** The two zeros, [0.0] and [-0.0]. *)
Definition is_zero (x : float32) : Prop := ∃ s, x = S754_zero s.

(** The integer part of a finite number, rounded towards zero. *)
Definition trunc (x : float32) : option Z :=
  match x with
  | S754_zero _ => Some 0%Z
  | S754_finite s m e =>
      Some (cond_Zopp s (if (e <? 0)%Z then Z.shiftr (Zpos m) (- e)
                         else Z.shiftl (Zpos m) e))
  | _ => None
  end.

End F32.

(** ** Helper functions shared by the two notebooks *)

(** [np.zeros((n, k))]. *)
Definition np_zeros2 (n k : nat) : list (list Z) := replicate n (replicate k 0%Z).

(** [ind[i, c] = v] for a row position [i] and a column index [c]. *)
Definition setitem2 (ind : list (list Z)) (i : nat) (c v : Z)
  : option (list (list Z)) :=
  row ← ind !! i;
  k ← Py.index (length row) c;
  Some (<[i := <[k := v]> row]> ind).

(** [astype(np.int32)] on one entry of an array, by the type of the
    entries. *)
Class AsInt32 (A : Type) := astype_int32 : A → Z.

(** An integer is reduced modulo 2^32 into [-2^31, 2^31). *)
#[global] Instance int_astype_int32 : AsInt32 Z :=
  λ z, ((z + 2 ^ 31) mod 2 ^ 32 - 2 ^ 31)%Z.

(** A [float32] is cut to its integer part; a value without an integer part
    in [-2^31, 2^31) ([nan], an infinity, 2^31 and beyond) gives -2^31, the
    result of the conversion instruction of x86-64. *)
#[global] Instance float32_astype_int32 : AsInt32 F32.float32 :=
  λ x, match F32.trunc x with
       | Some z => if decide (- 2 ^ 31 ≤ z < 2 ^ 31)%Z then z else (- 2 ^ 31)%Z
       | None => (- 2 ^ 31)%Z
       end.

(** [y2indicator(y)], for an array of integers as for the array of
    [float32] labels that [get_normalized_data] returns. *)
Definition y2indicator {A} `{AsInt32 A} (y : list A) : option (list (list Z)) :=
  let N := length y in
  let y := map astype_int32 y in
  let ind := np_zeros2 N 10 in
  Py.for_each (λ i ind, yi ← y !! i; setitem2 ind i yi 1)
              (Py.range (Z.of_nat N)) ind.

(** The number of positions at which [p] and [t] differ. *)
Definition mismatches (p t : list Z) : nat :=
  length (filter (λ pt : Z * Z, pt.1 ≠ pt.2) (zip p t)).

(** [error_rate(p, t) = np.mean(p != t)]: the fraction of positions at which
    prediction and target differ. [None] stands for the cases in which NumPy
    yields no number: [nan] on empty arrays, and arrays of unequal lengths,
    which the notebooks never compare. *)
Definition error_rate (p t : list Z) : option Q :=
  if decide (length p = length t ∧ length p ≠ 0)
  then Some (Z.of_nat (mismatches p t) # Pos.of_nat (length p))%Q
  else None.

(** ** Loading and normalising the data *)

(** Random number generation. [np_random_shuffle] is [np.random.shuffle] on
    the rows of an array; [sklearn_shuffle i] is the call of
    [sklearn.utils.shuffle] at the start of epoch [i], which applies one
    permutation to both arrays. The library accepts two arrays with the same
    number of rows only: that is the case its law is about. *)
Class Rng := {
  np_random_shuffle : ∀ A, list A → list A;
  sklearn_shuffle : ∀ A B, nat → list A * list B → list A * list B
}.
Arguments np_random_shuffle {_ _} _.
Arguments sklearn_shuffle {_ _ _} _ _.

Class RngLaws (G : Rng) : Prop := {
  np_random_shuffle_perm :
    ∀ A (l : list A), Permutation (np_random_shuffle l) l;
  sklearn_shuffle_perm :
    ∀ A B i (X : list A) (Y : list B),
      length X = length Y →
      length (sklearn_shuffle i (X, Y)).1 = length X ∧
      length (sklearn_shuffle i (X, Y)).2 = length Y ∧
      Permutation (zip (sklearn_shuffle i (X, Y)).1 (sklearn_shuffle i (X, Y)).2)
                  (zip X Y)
}.

(** A generator without randomness, to run the definitions on examples:
    [np.random.shuffle] reverses the rows, [sklearn.utils.shuffle] keeps the
    order. *)
Definition reversing_rng : Rng :=
  {| np_random_shuffle := λ A l, reverse l;
     sklearn_shuffle := λ A B _ XY, XY |}.

Module Normalize.
Import F32.











End Normalize.



(** ** Train / holdout split *)

Module Split.

Definition Xtrain {A} (X : list A) : list A := Py.slice_until_last X 1000.
Definition Ytrain {B} (Y : list B) : list B := Py.slice_until_last Y 1000.
Definition Xtest {A} (X : list A) : list A := Py.slice_from_last X 1000.
Definition Ytest {B} (Y : list B) : list B := Py.slice_from_last Y 1000.
Definition Ytrain_ind (Y : list Z) := y2indicator (Ytrain Y).
Definition Ytest_ind (Y : list Z) := y2indicator (Ytest Y).

End Split.


(** ** Tensors and Theano's shared variables *)

(** A tensor: its shape and its entries in row-major order. *)
Record tensor := Tensor { shape : list nat; data : list R }.

(** The entries fill the shape. *)
Definition wf (t : tensor) : Prop := length (data t) = foldr Nat.mul 1 (shape t).

(** [np.zeros(shape)] *)
Definition np_zeros (sh : list nat) : tensor :=
  Tensor sh (replicate (foldr Nat.mul 1 sh) 0%R).

Module T.

(** An elementwise operation on two tensors; none of the dimensions of a
    shared variable is broadcastable, so that the shapes have to agree. *)
Definition elemwise (f : R → R → R) (a b : tensor) : option tensor :=
  if decide (shape a = shape b)
  then Some (Tensor (shape a) (zip_with f (data a) (data b)))
  else None.

Definition add : tensor → tensor → option tensor := elemwise Rplus.
Definition sub : tensor → tensor → option tensor := elemwise Rminus.

(** The product [c * a] with a scalar. *)
Definition scal (c : R) (a : tensor) : tensor :=
  Tensor (shape a) (map (Rmult c) (data a)).

End T.

(** The sixteen shared variables: eight parameters and their momentum
    changes. *)
Inductive shared : Set :=
| W1 | b1 | W2 | b2 | W3 | b3 | W4 | b4
| dW1 | db1 | dW2 | db2 | dW3 | db3 | dW4 | db4.

#[global] Instance shared_eq_dec : EqDecision shared.
Proof. solve_decision. Defined.

(** The values of the shared variables. *)
Definition store : Type := shared → tensor.

Definition set_value (v : shared) (t : tensor) (s : store) : store :=
  λ w, if decide (w = v) then t else s w.

(** [params = (W1, b1, W2, b2, W3, b3, W4, b4)] *)
Definition params : list shared := [W1; b1; W2; b2; W3; b3; W4; b4].

(** The momentum change that goes with a parameter (on the momentum changes
    themselves the function is the identity). *)
Definition momentum (θ : shared) : shared :=
  match θ with
  | W1 => dW1 | b1 => db1 | W2 => dW2 | b2 => db2
  | W3 => dW3 | b3 => db3 | W4 => dW4 | b4 => db4
  | dθ => dθ
  end.

(** The constants of gradient descent with momentum in the Theano
    notebook: learning rate, L2 coefficient and momentum coefficient. *)
Record hyper := Hyper { lr : R; reg : R; mu : R }.

(** The constants of the loop: number of epochs, how often the holdout set
    is evaluated, and the batch size. *)
Record schedule := Schedule { max_iter : Z; print_period : nat; batch_sz : nat }.

(** The values the Theano notebook sets. *)
Definition theano_hyper : hyper :=
  {| lr := 4 / 100000; reg := 1 / 100; mu := 9 / 10 |}.
Definition theano_schedule : schedule :=
  {| max_iter := 30; print_period := 10; batch_sz := 500 |}.

(** The values the TensorFlow notebook sets. *)
Definition tensorflow_schedule : schedule :=
  {| max_iter := 6; print_period := 10; batch_sz := 500 |}.

(** A minibatch: rows of the features and the matching rows of the
    indicator matrix. *)
Definition batch (X Y : Type) : Type := list X * list Y.

(** What the symbolic graph computes, given the values of the shared
    variables and of the inputs [X], [Y]: the gradient [T.grad(cost, θ)], the
    regularised [cost] and [prediction = T.argmax(pY, axis=1)]. *)
Class Graph (X Y : Type) := {
  grad_cost : hyper → store → batch X Y → shared → tensor;
  cost : hyper → store → batch X Y → R;
  prediction : store → batch X Y → list Z
}.

(** The gradient with respect to a parameter has the shape of the
    parameter; there is one prediction per row. *)
Class GraphLaws {X Y} (G : Graph X Y) : Prop := {
  grad_cost_shape : ∀ h s b θ, wf (s θ) →
    shape (grad_cost h s b θ) = shape (s θ) ∧ wf (grad_cost h s b θ);
  prediction_length : ∀ s b, length (prediction s b) = length b.1
}.

(** The cost is an expression in the inputs and the eight parameters: its
    gradient does not read the momentum changes. *)
Definition reads_params_only {X Y} (G : Graph X Y) : Prop :=
  ∀ h s1 s2 b θ,
    θ ∈ params →
    (∀ p, p ∈ params → s1 p = s2 p) →
    grad_cost h s1 b θ = grad_cost h s2 b θ.

(** A small store to run the definitions on: every shared variable is the
    vector [(1, 2)]. *)
Definition example_store : store := λ _, Tensor [2] [1%R; 2%R].

(** A symbolic expression, as the function that evaluates it. *)
Definition expr (X Y : Type) : Type := store → batch X Y → option tensor.

Module Theano.
Section Notebook.
Context {X Y : Type} `{G : Graph X Y} (h : hyper).

(** [θ + mu*dθ - lr*T.grad(cost, θ)] *)
Definition update_param (θ dθ : shared) : expr X Y := λ s b,
  t ← T.add (s θ) (T.scal (mu h) (s dθ));
  T.sub t (T.scal (lr h) (grad_cost h s b θ)).

(** [mu*dθ - lr*T.grad(cost, θ)] *)
Definition update_change (θ dθ : shared) : expr X Y := λ s b,
  T.sub (T.scal (mu h) (s dθ)) (T.scal (lr h) (grad_cost h s b θ)).

Definition update_W1 := update_param W1 dW1.
Definition update_b1 := update_param b1 db1.
Definition update_W2 := update_param W2 dW2.
Definition update_b2 := update_param b2 db2.
Definition update_W3 := update_param W3 dW3.
Definition update_b3 := update_param b3 db3.
Definition update_W4 := update_param W4 dW4.
Definition update_b4 := update_param b4 db4.

Definition update_dW1 := update_change W1 dW1.
Definition update_db1 := update_change b1 db1.
Definition update_dW2 := update_change W2 dW2.
Definition update_db2 := update_change b2 db2.
Definition update_dW3 := update_change W3 dW3.
Definition update_db3 := update_change b3 db3.
Definition update_dW4 := update_change W4 dW4.
Definition update_db4 := update_change b4 db4.

(** The new values of an update list, every expression evaluated on the
    store [s] the call starts from. *)
Definition eval_updates (updates : list (shared * expr X Y))
    (s : store) (b : batch X Y) : option (list (shared * tensor)) :=
  mapM (λ ve : shared * expr X Y, t ← ve.2 s b; Some (ve.1, t)) updates.

(** Writing the new values back. *)
Definition write_back (news : list (shared * tensor)) (s : store) : store :=
  foldl (λ s' vt, set_value vt.1 vt.2 s') s news.

(** [theano.function(inputs=[X, Y], outputs=..., updates=...)]: a call
    evaluates the outputs and all the update expressions on the current
    values of the shared variables, then assigns the new values. *)
Definition theano_function {O} (outputs : store → batch X Y → O)
    (updates : list (shared * expr X Y))
  : batch X Y → store → option (O * store) := λ b s,
  news ← eval_updates updates s b;
  Some (outputs s b, write_back news s).

(** For comparison, what assigning the same updates one after the other
    would do: every expression is evaluated on the store the assignments
    before it have left. *)
Definition assign_in_turn (updates : list (shared * expr X Y))
  : batch X Y → store → option store := λ b s,
  Py.for_each (λ (ve : shared * expr X Y) s',
                 t ← ve.2 s' b; Some (set_value ve.1 t s'))
              updates s.

Definition train : batch X Y → store → option (unit * store) :=
  theano_function (λ _ _, tt)
    ([(W1, update_W1); (b1, update_b1); (W2, update_W2); (b2, update_b2);
      (W3, update_W3); (b3, update_b3); (W4, update_W4); (b4, update_b4)] ++
     [(dW1, update_dW1); (db1, update_db1); (dW2, update_dW2);
      (db2, update_db2); (dW3, update_dW3); (db3, update_db3);
      (dW4, update_dW4); (db4, update_db4)]).

Definition get_prediction : batch X Y → store → option ((R * list Z) * store) :=
  theano_function (λ s b, (cost h s b, prediction s b)) [].

(** A sequence of parameter-update steps, one per batch. *)
Definition train_steps (bs : list (batch X Y)) (s : store) : option store :=
  Py.for_each (λ b s, snd <$> train b s) bs s.

End Notebook.
End Theano.

(** Every parameter and its momentum change fill their shapes, and the two
    shapes are the same. *)
Definition well_shaped (s : store) : Prop :=
  ∀ θ, θ ∈ params →
    wf (s θ) ∧ wf (s (momentum θ)) ∧ shape (s (momentum θ)) = shape (s θ).

(** A graph to run the definitions on examples: the cost is the L2 term
    [reg * sum of the squares of the parameters] alone, whose gradient with
    respect to [θ] is [2 * reg * θ]; every row is predicted to be a 0. *)
Definition l2_graph (X Y : Type) : Graph X Y :=
  {| grad_cost := λ h s _ θ, T.scal (2 * reg h) (s θ);
     cost := λ h s _,
       (reg h * foldr Rplus 0
                  (map (λ θ, foldr Rplus 0 (map (λ x, x * x) (data (s θ))))
                       params))%R;
     prediction := λ _ b, map (λ _, 0%Z) b.1 |}.

(** ** Initial values of the shared variables *)

Definition W1_shape : list nat := [20; 1; 5; 5].
Definition W2_shape : list nat := [50; 20; 5; 5].
Definition M : nat := 500.
Definition K : nat := 10.

(** The four random draws [W1_init], ..., [W4_init]. *)
Record weights := Weights {
  W1_init : tensor; W2_init : tensor; W3_init : tensor; W4_init : tensor
}.

Definition b1_init : tensor := np_zeros [hd 0 W1_shape].
Definition b2_init : tensor := np_zeros [hd 0 W2_shape].
Definition b3_init : tensor := np_zeros [M].
Definition b4_init : tensor := np_zeros [K].

(** Small weights to run the definitions on: all four are the 2 x 2 zero
    matrix. *)
Definition example_weights : weights :=
  Weights (np_zeros [2; 2]) (np_zeros [2; 2]) (np_zeros [2; 2]) (np_zeros [2; 2]).

(** The value each shared variable is created with. *)
Definition initial_store (w : weights) : store := λ v,
  match v with
  | W1 => W1_init w | b1 => b1_init
  | W2 => W2_init w | b2 => b2_init
  | W3 => W3_init w | b3 => b3_init
  | W4 => W4_init w | b4 => b4_init
  | dW1 => np_zeros (shape (W1_init w)) | db1 => np_zeros (shape b1_init)
  | dW2 => np_zeros (shape (W2_init w)) | db2 => np_zeros (shape b2_init)
  | dW3 => np_zeros (shape (W3_init w)) | db3 => np_zeros (shape b3_init)
  | dW4 => np_zeros (shape (W4_init w)) | db4 => np_zeros (shape b4_init)
  end.

(** ** The training loop of the Theano notebook

    The loop is written over any pair of functions [train] and
    [get_prediction] acting on a state [S], so that it can be run on the
    shared variables as well as on a recorder of the calls it makes. *)

Module TheanoLoop.
Section Loop.
Context {X Y S : Type} `{Rng}.
Variable c : schedule.
Variable train : batch X Y → S → option (unit * S).
Variable get_prediction : batch X Y → S → option ((R * list Z) * S).
Variables (Xtest : list X) (Ytest_ind : list Y) (Ytest : list Z).

(** What the loop mutates: the training arrays (reshuffled every epoch), the
    state behind [train] and [get_prediction], the history [LL] and what has
    been printed (epoch, batch, cost, error). *)
Record fit_state := FitState {
  Xtrain : list X;
  Ytrain_ind : list Y;
  vars : S;
  LL : list R;
  stdout : list (nat * nat * R * option Q)
}.

(** Rows [j*batch_sz : j*batch_sz + batch_sz] of both arrays. *)
Definition minibatch (Xs : list X) (Ys : list Y) (j : nat) : batch X Y :=
  (Py.slice Xs (j * batch_sz c) (j * batch_sz c + batch_sz c),
   Py.slice Ys (j * batch_sz c) (j * batch_sz c + batch_sz c)).

(** The body of the loop over [j]. *)
Definition batch_body (i j : nat) (st : fit_state) : option fit_state :=
  let '(Xbatch, Ybatch) := minibatch (Xtrain st) (Ytrain_ind st) j in
  '(_, s1) ← train (Xbatch, Ybatch) (vars st);
  r ← Py.mod_ j (print_period c);
  if decide (r = 0) then
    '((cost_val, prediction_val), s2) ← get_prediction (Xtest, Ytest_ind) s1;
    let err := error_rate prediction_val Ytest in
    let LL' := LL st ++ [cost_val] in
    let out' :=
      if decide ((i mod 2 = 0 ∨ i mod 29 = 0) ∧ j mod 100 = 0)
      then stdout st ++ [(i, j, cost_val, err)] else stdout st in
    Some (FitState (Xtrain st) (Ytrain_ind st) s2 LL' out')
  else
    Some (FitState (Xtrain st) (Ytrain_ind st) s1 (LL st) (stdout st)).

(** The loop over [j] of one epoch. *)
Definition batches_loop (n_batches : Q) (i : nat) (st : fit_state)
  : option fit_state :=
  Py.for_each (batch_body i) (Py.range (Py.int n_batches)) st.

(** The body of the loop over [i]: reshuffle, then go through the batches. *)
Definition epoch (n_batches : Q) (i : nat) (st : fit_state)
  : option fit_state :=
  let XY := sklearn_shuffle i (Xtrain st, Ytrain_ind st) in
  batches_loop n_batches i
    (FitState XY.1 XY.2 (vars st) (LL st) (stdout st)).

(** The notebook from [N = Xtrain.shape[0]] to the end of the loop. *)
Definition fit (Xtrain0 : list X) (Ytrain_ind0 : list Y) (s0 : S)
  : option fit_state :=
  let N := length Xtrain0 in
  n_batches ← Py.truediv (Z.of_nat N) (Z.of_nat (batch_sz c));
  Py.for_each (epoch n_batches) (Py.range (max_iter c))
    (FitState Xtrain0 Ytrain_ind0 s0 [] []).

(** [get_prediction] returns, and leaves the state as it is. *)
Definition read_only : Prop :=
  ∀ b s, ∃ o, get_prediction b s = Some (o, s).

(** One call of [train] on batch [j] of the arrays [Xs], [Ys]. *)
Definition train_on (Xs : list X) (Ys : list Y) (j : nat) (s : S) : option S :=
  snd <$> train (minibatch Xs Ys j) s.

(** For comparison, the loop with the calls of [train] alone: neither
    [get_prediction] nor the history. The state is the two training arrays
    and the state behind [train]. *)
Definition epoch_without_metrics (n_batches : Q) (i : nat)
    (st : list X * list Y * S) : option (list X * list Y * S) :=
  let XY := sklearn_shuffle i (st.1.1, st.1.2) in
  s' ← Py.for_each (train_on XY.1 XY.2) (Py.range (Py.int n_batches)) st.2;
  Some (XY.1, XY.2, s').

Definition fit_without_metrics (Xtrain0 : list X) (Ytrain_ind0 : list Y)
    (s0 : S) : option S :=
  let N := length Xtrain0 in
  n_batches ← Py.truediv (Z.of_nat N) (Z.of_nat (batch_sz c));
  st ← Py.for_each (epoch_without_metrics n_batches) (Py.range (max_iter c))
         (Xtrain0, Ytrain_ind0, s0);
  Some st.2.

End Loop.

(** The recorder: the state is the list of the batches [train] has been
    called on, in order. *)
Definition record_train {X Y} (b : batch X Y) (log : list (batch X Y))
  : option (unit * list (batch X Y)) := Some (tt, log ++ [b]).
Definition record_get_prediction {X Y} (b : batch X Y) (log : list (batch X Y))
  : option ((R * list Z) * list (batch X Y)) := Some ((0%R, []), log).

(** The batches one epoch trains on, given the arrays as shuffled at its
    start. *)
Definition trained_batches {X Y} (c : schedule) (Xs : list X) (Ys : list Y)
  : option (list (batch X Y)) :=
  n_batches ← Py.truediv (Z.of_nat (length Xs)) (Z.of_nat (batch_sz c));
  st ← batches_loop c record_train record_get_prediction [] [] []
         n_batches 0 (FitState Xs Ys [] [] []);
  Some (vars st).

(** The training arrays during epoch [i]: the arrays of the epoch before (the
    initial ones for epoch 0) as reshuffled at the start of epoch [i]. *)
Fixpoint arrays_at `{Rng} {X Y} (Xs : list X) (Ys : list Y) (i : nat)
  : list X * list Y :=
  sklearn_shuffle i
    match i with
    | 0 => (Xs, Ys)
    | S i' => arrays_at Xs Ys i'
    end.

(** What it means for the rows the whole batches leave over to be trained
    on: the slice that starts where the whole batches end, which is shorter
    than [batch_sz], is one of the batches of the epoch. *)
Definition remainder_trained {X Y} (c : schedule) (Xs : list X) (Ys : list Y)
  : Prop :=
  ∃ bs, trained_batches c Xs Ys = Some bs ∧
        minibatch c Xs Ys (length Xs / batch_sz c) ∈ bs.

End TheanoLoop.

(** ** The training loop of the TensorFlow notebook *)

Module TensorFlow.

(** [a[lo:hi] = v] on a 1-D array: [v] has to have the length of the slice,
    or length 1, in which case its element is repeated. *)
Definition setslice (a : list Z) (lo hi : nat) (v : list Z) : option (list Z) :=
  let n := length (Py.slice a lo hi) in
  if decide (length v = n) then Some (take lo a ++ v ++ drop (lo + n) a)
  else if decide (length v = 1)
       then Some (take lo a ++ replicate n (hd 0%Z v) ++ drop (lo + n) a)
       else None.

Section Loop.
Context {X Y S : Type}.
Variable c : schedule.
(** What [session.run] computes for [train_op], [cost] and [predict_op]. *)
Variable train_op : batch X Y → S → S.
Variable cost_op : batch X Y → S → R.
Variable predict_op : list X → S → list Z.
Variables (Xtrain : list X) (Ytrain_ind : list Y).
Variables (Xtest : list X) (Ytest_ind : list Y) (Ytest : list Z).

(** The placeholders [X] and [T] have [batch_sz] rows: feeding anything else
    is an error. *)
Definition run_train (b : batch X Y) (s : S) : option S :=
  if decide (length b.1 = batch_sz c ∧ length b.2 = batch_sz c)
  then Some (train_op b s) else None.
Definition run_cost (b : batch X Y) (s : S) : option R :=
  if decide (length b.1 = batch_sz c ∧ length b.2 = batch_sz c)
  then Some (cost_op b s) else None.
Definition run_predict (Xb : list X) (s : S) : option (list Z) :=
  if decide (length Xb = batch_sz c) then Some (predict_op Xb s) else None.

Record fit_state := FitState {
  vars : S;
  LL : list R;
  stdout : list (nat * nat * R * option Q)
}.

(** The body of the loop over [k]. *)
Definition test_body (s : S) (k : nat) (acc : R * list Z)
  : option (R * list Z) :=
  let '(test_cost, prediction) := acc in
  let lo := k * batch_sz c in
  let hi := k * batch_sz c + batch_sz c in
  let Xtestbatch := Py.slice Xtest lo hi in
  let Ytestbatch := Py.slice Ytest_ind lo hi in
  cst ← run_cost (Xtestbatch, Ytestbatch) s;
  p ← run_predict Xtestbatch s;
  prediction' ← setslice prediction lo hi p;
  Some ((test_cost + cst)%R, prediction').

(** Cost, predictions and error rate on the holdout set. *)
Definition evaluate (s : S) : option (R * list Z * option Q) :=
  q ← Py.truediv (Z.of_nat (length Xtest)) (Z.of_nat (batch_sz c));
  acc ← Py.for_each (test_body s) (Py.range (Py.int q))
          (0%R, replicate (length Xtest) 0%Z);
  Some (acc.1, acc.2, error_rate acc.2 Ytest).

(** The body of the loop over [j]. *)
Definition batch_body (i j : nat) (st : fit_state) : option fit_state :=
  let Xbatch := Py.slice Xtrain (j * batch_sz c) (j * batch_sz c + batch_sz c) in
  let Ybatch := Py.slice Ytrain_ind (j * batch_sz c) (j * batch_sz c + batch_sz c) in
  if decide (length Xbatch = batch_sz c) then
    s1 ← run_train (Xbatch, Ybatch) (vars st);
    r ← Py.mod_ j (print_period c);
    if decide (r = 0) then
      res ← evaluate s1;
      let '(test_cost, _, err) := res in
      let out' :=
        if decide (j = 0) then stdout st ++ [(i, j, test_cost, err)]
        else stdout st in
      Some (FitState s1 (LL st ++ [test_cost]) out')
    else Some (FitState s1 (LL st) (stdout st))
  else Some st.

Definition fit (s0 : S) : option fit_state :=
  let N := length Xtrain in
  n_batches ← Py.truediv (Z.of_nat N) (Z.of_nat (batch_sz c));
  Py.for_each
    (λ i, Py.for_each (batch_body i) (Py.range (Py.int n_batches)))
    (Py.range (Py.int (inject_Z (max_iter c))))
    (FitState s0 [] []).

End Loop.

(** The recorder: [train_op] appends the batch it is fed to the state. *)
Definition trained_batches {X Y} (c : schedule) (Xs : list X) (Ys : list Y)
  : option (list (batch X Y)) :=
  n_batches ← Py.truediv (Z.of_nat (length Xs)) (Z.of_nat (batch_sz c));
  st ← Py.for_each
         (batch_body c (λ b log, log ++ [b]) (λ _ _, 0%R) (λ _ _, [])
                     Xs Ys [] [] [] 0)
         (Py.range (Py.int n_batches)) (FitState [] [] []);
  Some (vars st).

End TensorFlow.

(** ** Further parts of the notebooks *)

(** [relu(a) = a * (a > 0)] on one entry: the comparison is 1 or 0. *)
Definition relu (a : R) : R := (a * (if Rlt_dec 0 a then 1 else 0))%R.

(** [np.argmax] of a row, by a strict comparison [ltb]: the position of the
    first entry that no other entry exceeds; a [ValueError] on an empty
    row. *)
Fixpoint argmax_from {A} (ltb : A → A → bool) (i best : nat) (bestv : A)
    (l : list A) : nat :=
  match l with
  | [] => best
  | x :: l' =>
      if ltb bestv x then argmax_from ltb (S i) i x l'
      else argmax_from ltb (S i) best bestv l'
  end.

Definition argmax {A} (ltb : A → A → bool) (row : list A) : option nat :=
  match row with
  | [] => None
  | x :: l => Some (argmax_from ltb 1 0 x l)
  end.

(** [T.argmax(pY, axis=1)] on a matrix whose entries are integers, as the
    array of labels it is compared with. *)
Definition argmax_axis1 (pY : list (list Z)) : option (list Z) :=
  mapM (λ row, Z.of_nat <$> argmax Z.ltb row) pY.

(** [(param*param).sum()] *)
Definition sum_of_squares (t : tensor) : R :=
  foldr Rplus 0%R (zip_with Rmult (data t) (data t)).

(** [reg_cost = reg*np.sum((param*param).sum() for param in params)] *)
Definition reg_cost (h : hyper) (s : store) : R :=
  (reg h * foldr Rplus 0 (map (λ p, sum_of_squares (s p)) params))%R.

(** What an expression over the floats evaluates to, over the reals: a
    number, or [NotFinite] for [inf], [-inf] and [nan]. *)
Inductive outcome := Finite (r : R) | NotFinite.

#[global] Instance Rlt_decision (x y : R) : Decision (x < y)%R := Rlt_dec x y.

(** [-(Y * T.log(pY)).sum()]. The product is entry by entry: Theano raises
    when the two matrices do not have the same shape ([None]). The logarithm
    of an entry that is not positive is [-inf] or [nan], and then the sum is
    not a number either. *)
Definition cross_entropy (Y pY : list (list R)) : option outcome :=
  if decide (Forall2 (λ y p : list R, length y = length p) Y pY) then
    Some (if decide (Forall (Forall (λ p, 0 < p)%R) pY)
          then Finite
                 (- foldr Rplus 0
                      (zip_with
                         (λ y p, foldr Rplus 0
                                   (zip_with (λ yk pk, yk * ln pk) y p))
                         Y pY))%R
          else NotFinite)
  else None.

(** [cost = -(Y * T.log(pY)).sum() + reg_cost] *)
Definition cost_of (h : hyper) (s : store) (Y pY : list (list R))
  : option outcome :=
  ce ← cross_entropy Y pY;
  Some match ce with
       | Finite x => Finite (x + reg_cost h s)%R
       | NotFinite => NotFinite
       end.

(** The indicator matrix as the matrix of floats it is. *)
Definition as_floats (ind : list (list Z)) : list (list R) := map (map IZR) ind.

(** ** Initial weights *)

(** [np.random.randn] for a shape: the entries of draw number [k], in
    row-major order. *)
Class Randn := { np_random_randn : nat → list nat → list R }.

(** A draw has one entry per position of the shape. *)
Class RandnLaws (D : Randn) : Prop := {
  np_random_randn_length :
    ∀ k sh, length (np_random_randn k sh) = foldr Nat.mul 1 sh
}.

(** Draws without randomness, to run the definitions on examples: every
    entry is 1. *)
Definition ones_randn : Randn :=
  {| np_random_randn := λ _ sh, replicate (foldr Nat.mul 1 sh) 1%R |}.

(** [np.prod] *)
Definition np_prod (l : list R) : R := foldr Rmult 1%R l.

(** The sum under the square root in [init_filter] of the Theano notebook,
    [np.prod(shape[1:]) + shape[0]*np.prod(shape[2:] / np.prod(poolsz))]:
    the division is of every entry of [shape[2:]]. *)
Definition fan_in_plus_fan_out (shape poolsz : list nat) : option R :=
  s0 ← shape !! 0;
  Some (np_prod (map INR (drop 1 shape))
        + INR s0 * np_prod (map (λ d, INR d / np_prod (map INR poolsz))
                                (drop 2 shape)))%R.

(** The same sum in the TensorFlow notebook, whose filters have the feature
    maps last:
    [np.prod(shape[:-1]) + shape[-1]*np.prod(shape[:-2] / np.prod(poolsz))]. *)
Definition fan_in_plus_fan_out_tf (shape poolsz : list nat) : option R :=
  s_last ← last shape;
  Some (np_prod (map INR (take (length shape - 1) shape))
        + INR s_last * np_prod (map (λ d, INR d / np_prod (map INR poolsz))
                                    (take (length shape - 2) shape)))%R.

(** [init_filter(shape, poolsz)], as draw number [k]. *)
Definition init_filter `{Randn} (k : nat) (shape poolsz : list nat)
  : option tensor :=
  fan ← fan_in_plus_fan_out shape poolsz;
  Some (Tensor shape (map (λ x, x / sqrt fan)%R (np_random_randn k shape))).

(** [np.random.randn(r, c) / np.sqrt(r + c)] *)
Definition init_dense `{Randn} (k : nat) (r c : nat) : tensor :=
  Tensor [r; c] (map (λ x, x / sqrt (INR (r + c)))%R (np_random_randn k [r; c])).

Definition poolsz : list nat := [2; 2].

(** The four weight matrices as the Theano notebook draws them. *)
Definition notebook_weights `{Randn} : option weights :=
  w1 ← init_filter 0 W1_shape poolsz;
  w2 ← init_filter 1 W2_shape poolsz;
  let w3 := init_dense 2 (hd 0 W2_shape * 4 * 4) M in
  let w4 := init_dense 3 M K in
  Some (Weights w1 w2 w3 w4).

(** A graph to run the definitions on examples: every entry of every
    gradient is the constant [c], as for a cost that is linear in the
    parameters. *)
Definition flat_graph (X Y : Type) (c : R) : Graph X Y :=
  {| grad_cost := λ _ s _ θ, Tensor (shape (s θ)) (map (λ _, c) (data (s θ)));
     cost := λ _ s _,
       (c * foldr Rplus 0
              (map (λ θ, foldr Rplus 0 (data (s θ))) params))%R;
     prediction := λ _ b, map (λ _, 0%Z) b.1 |}.

(** Weights to run the definitions on that are not zero: four 2 x 2
    matrices with the entries 1, 2, 3, 4. *)
Definition sample_weights : weights :=
  Weights (Tensor [2; 2] [1; 2; 3; 4]%R) (Tensor [2; 2] [1; 2; 3; 4]%R)
          (Tensor [2; 2] [1; 2; 3; 4]%R) (Tensor [2; 2] [1; 2; 3; 4]%R).

(** [1 + μ + ... + μ^(n-1)] *)
Fixpoint geometric (μ : R) (n : nat) : R :=
  match n with
  | 0 => 0%R
  | S n' => (geometric μ n' + μ ^ n')%R
  end.

(** * Properties *)

(** ** Python primitives *)

Lemma range_of_nat n : Py.range (Z.of_nat n) = seq 0 n.
Proof. unfold Py.range. by rewrite Nat2Z.id. Qed.

(** [int(N / B)] is the floor of the quotient. *)
Lemma int_truediv (N B : nat) :
  B ≠ 0 →
  ∃ q, Py.truediv (Z.of_nat N) (Z.of_nat B) = Some q ∧
       Py.int q = Z.of_nat (N / B).
Proof.
  intros HB. unfold Py.truediv.
  destruct (decide (Z.of_nat B = 0%Z)) as [E|_]; [lia|].
  eexists; split; [done|].
  unfold Py.int. destruct B as [|B']; [done|].
  rewrite Nat2Z.inj_div.
  change (Z.of_nat (S B')) with (Z.pos (Pos.of_succ_nat B')).
  cbn [inject_Z Qdiv Qinv Qmult Qnum Qden].
  rewrite Z.mul_1_r, Pos.mul_1_l.
  apply Z.quot_div_nonneg; lia.
Qed.

Lemma truediv_zero a : Py.truediv a 0 = None.
Proof. done. Qed.

Lemma for_each_app {S I} (body : I → S → option S) js ks s :
  Py.for_each body (js ++ ks) s = Py.for_each body js s ≫= Py.for_each body ks.
Proof.
  revert s. induction js as [|j js IH]; intros s; simpl; [done|].
  destruct (body j s); simpl; auto.
Qed.

Lemma slice_take_drop {A} (l : list A) j B :
  Py.slice l (j * B) (j * B + B) = take B (drop (j * B) l).
Proof. unfold Py.slice. f_equal. lia. Qed.

Lemma slice_whole_batch {A} (l : list A) j B :
  j < length l / B → length (Py.slice l (j * B) (j * B + B)) = B.
Proof.
  intros Hj. rewrite slice_take_drop, length_take, length_drop.
  assert (B ≠ 0) by (intros ->; simpl in Hj; lia).
  assert (S j * B ≤ length l); [|lia].
  transitivity (length l / B * B); [apply Nat.mul_le_mono_r; lia|].
  rewrite Nat.mul_comm. by apply Nat.Div0.mul_div_le.
Qed.

(** Consecutive slices of width [B] add up to a prefix. *)
Lemma concat_slices {A} (l : list A) B n :
  concat (map (λ j, Py.slice l (j * B) (j * B + B)) (seq 0 n)) = take (n * B) l.
Proof.
  induction n as [|n IH]; [done|].
  rewrite seq_S, map_app, concat_app, IH. simpl.
  rewrite app_nil_r, slice_take_drop, take_take_drop. f_equal. lia.
Qed.

Lemma whole_batches_rows N B : B ≠ 0 → N / B * B = N - N mod B.
Proof. intros HB. pose proof (Nat.div_mod_eq N B). lia. Qed.

(** ** The loop over the batches of one epoch (Theano notebook) *)

Section TheanoLoopFacts.
Context {X Y S : Type}.
Variable c : schedule.
Variable train : batch X Y → S → option (unit * S).
Variable get_prediction : batch X Y → S → option ((R * list Z) * S).
Variables (Xtest : list X) (Ytest_ind : list Y) (Ytest : list Z).

#[local] Abbreviation read_only := (TheanoLoop.read_only get_prediction).
#[local] Abbreviation train_on := (TheanoLoop.train_on c train).
#[local] Abbreviation body :=
  (TheanoLoop.batch_body c train get_prediction Xtest Ytest_ind Ytest).

Lemma batch_body_vars i j st :
  print_period c ≠ 0 → read_only →
  match body i j st with
  | Some st' =>
      TheanoLoop.Xtrain st' = TheanoLoop.Xtrain st ∧
      TheanoLoop.Ytrain_ind st' = TheanoLoop.Ytrain_ind st ∧
      train_on (TheanoLoop.Xtrain st) (TheanoLoop.Ytrain_ind st) j
               (TheanoLoop.vars st) = Some (TheanoLoop.vars st')
  | None =>
      train_on (TheanoLoop.Xtrain st) (TheanoLoop.Ytrain_ind st) j
               (TheanoLoop.vars st) = None
  end.
Proof.
  intros Hp Hro. unfold TheanoLoop.batch_body, TheanoLoop.train_on.
  destruct (TheanoLoop.minibatch c _ _ j) as [Xb Yb] eqn:Eb.
  destruct (train (Xb, Yb) (TheanoLoop.vars st)) as [[[] s1]|]; simpl; [|done].
  unfold Py.mod_. destruct (decide (print_period c = 0)); [done|]. simpl.
  destruct (decide (j mod print_period c = 0)); [|done].
  destruct (Hro (Xtest, Ytest_ind) s1) as [[cv pv] ->]. simpl. done.
Qed.

Lemma batches_vars i js st :
  print_period c ≠ 0 → read_only →
  match Py.for_each (body i) js st with
  | Some st' =>
      TheanoLoop.Xtrain st' = TheanoLoop.Xtrain st ∧
      TheanoLoop.Ytrain_ind st' = TheanoLoop.Ytrain_ind st ∧
      Py.for_each (train_on (TheanoLoop.Xtrain st) (TheanoLoop.Ytrain_ind st))
                  js (TheanoLoop.vars st) = Some (TheanoLoop.vars st')
  | None =>
      Py.for_each (train_on (TheanoLoop.Xtrain st) (TheanoLoop.Ytrain_ind st))
                  js (TheanoLoop.vars st) = None
  end.
Proof.
  intros Hp Hro. revert st. induction js as [|j js IH]; intros st; simpl; [done|].
  pose proof (batch_body_vars i j st Hp Hro) as Hj.
  destruct (body i j st) as [st1|]; simpl.
  - destruct Hj as (HX & HY & ->). simpl.
    specialize (IH st1). rewrite HX, HY in IH. 
    destruct (Py.for_each (body i) js st1) as [st'|]; [|done].
    destruct IH as (HX' & HY' & IH). by rewrite HX', HY'.
  - by rewrite Hj.
Qed.

End TheanoLoopFacts.

(** The state behind [train] at the end of the loop, when [get_prediction]
    only reads. *)
Section FitFacts.
Context {X Y S : Type} `{Rn : Rng}.
Variable c : schedule.
Variable train : batch X Y → S → option (unit * S).
Variable get_prediction : batch X Y → S → option ((R * list Z) * S).
Variables (Xtest : list X) (Ytest_ind : list Y) (Ytest : list Z).
Hypothesis Hp : print_period c ≠ 0.
Hypothesis Hro : TheanoLoop.read_only get_prediction.

#[local] Abbreviation arrays_and_vars :=
  (λ st : @TheanoLoop.fit_state X Y S,
     (TheanoLoop.Xtrain st, TheanoLoop.Ytrain_ind st, TheanoLoop.vars st)).

Lemma epoch_vars n_batches i st :
  arrays_and_vars <$>
    TheanoLoop.epoch c train get_prediction Xtest Ytest_ind Ytest n_batches i st
  = TheanoLoop.epoch_without_metrics c train n_batches i
      (TheanoLoop.Xtrain st, TheanoLoop.Ytrain_ind st, TheanoLoop.vars st).
Proof.
  unfold TheanoLoop.epoch, TheanoLoop.epoch_without_metrics,
    TheanoLoop.batches_loop. cbn [fst snd].
  pose proof (batches_vars c train get_prediction Xtest Ytest_ind Ytest i
    (Py.range (Py.int n_batches))
    (TheanoLoop.FitState
       (sklearn_shuffle i (TheanoLoop.Xtrain st, TheanoLoop.Ytrain_ind st)).1
       (sklearn_shuffle i (TheanoLoop.Xtrain st, TheanoLoop.Ytrain_ind st)).2
       (TheanoLoop.vars st) (TheanoLoop.LL st) (TheanoLoop.stdout st))
    Hp Hro) as Hl.
  cbn [TheanoLoop.Xtrain TheanoLoop.Ytrain_ind TheanoLoop.vars] in Hl.
  destruct (Py.for_each (TheanoLoop.batch_body _ _ _ _ _ _ i) _ _) as [st'|].
  - destruct Hl as (HX & HY & Hv). rewrite Hv. simpl. by rewrite HX, HY.
  - by rewrite Hl.
Qed.

Lemma epochs_vars n_batches js st :
  arrays_and_vars <$>
    Py.for_each
      (TheanoLoop.epoch c train get_prediction Xtest Ytest_ind Ytest n_batches)
      js st
  = Py.for_each (TheanoLoop.epoch_without_metrics c train n_batches) js
      (TheanoLoop.Xtrain st, TheanoLoop.Ytrain_ind st, TheanoLoop.vars st).
Proof.
  revert st. induction js as [|i js IH]; intros st; [done|].
  cbn [Py.for_each]. rewrite <-epoch_vars.
  destruct (TheanoLoop.epoch _ _ _ _ _ _ _ i st) as [st1|]; [|done].
  apply IH.
Qed.

Lemma fit_vars Xtrain0 Ytrain_ind0 s0 :
  TheanoLoop.vars <$>
    TheanoLoop.fit c train get_prediction Xtest Ytest_ind Ytest
      Xtrain0 Ytrain_ind0 s0
  = TheanoLoop.fit_without_metrics c train Xtrain0 Ytrain_ind0 s0.
Proof.
  unfold TheanoLoop.fit, TheanoLoop.fit_without_metrics.
  destruct (Py.truediv _ _) as [q|]; [|done]. cbn [mbind option_bind].
  pose proof (epochs_vars q (Py.range (max_iter c))
                (TheanoLoop.FitState Xtrain0 Ytrain_ind0 s0 [] [])) as He.
  cbn [TheanoLoop.Xtrain TheanoLoop.Ytrain_ind TheanoLoop.vars] in He.
  rewrite <-He.
  by destruct (Py.for_each (TheanoLoop.epoch _ _ _ _ _ _ _) _ _).
Qed.

End FitFacts.

(** The recorder accumulates the batches in the order of the calls. *)
Lemma record_train_on {X Y} c (Xs : list X) (Ys : list Y) js log :
  Py.for_each (TheanoLoop.train_on c TheanoLoop.record_train Xs Ys) js log
  = Some (log ++ map (TheanoLoop.minibatch c Xs Ys) js).
Proof.
  revert log. induction js as [|j js IH]; intros log; simpl.
  - by rewrite app_nil_r.
  - rewrite IH. by rewrite <-app_assoc.
Qed.

Lemma record_read_only {X Y} :
  TheanoLoop.read_only (X:=X) (Y:=Y) TheanoLoop.record_get_prediction.
Proof. intros b s. by eexists. Qed.

(** The batches of one epoch are the [N / batch_sz] consecutive slices. *)
Lemma theano_trained_batches {X Y} c (Xs : list X) (Ys : list Y) :
  batch_sz c ≠ 0 → print_period c ≠ 0 →
  TheanoLoop.trained_batches c Xs Ys
  = Some (map (TheanoLoop.minibatch c Xs Ys) (seq 0 (length Xs / batch_sz c))).
Proof.
  intros HB Hp. unfold TheanoLoop.trained_batches.
  destruct (int_truediv (length Xs) (batch_sz c) HB) as (q & -> & Hq). simpl.
  unfold TheanoLoop.batches_loop. rewrite Hq, range_of_nat.
  pose proof (batches_vars c TheanoLoop.record_train
    TheanoLoop.record_get_prediction [] [] [] 0
    (seq 0 (length Xs / batch_sz c))
    (TheanoLoop.FitState Xs Ys [] [] []) Hp record_read_only) as Hl.
  simpl in Hl. rewrite record_train_on in Hl.
  destruct (Py.for_each _ _ _) as [st'|]; [|done].
  destruct Hl as (_ & _ & Hl). simpl. by injection Hl as <-.
Qed.

Lemma minibatch_lookup {X Y} c (Xs : list X) (Ys : list Y) n j :
  j < n →
  map (TheanoLoop.minibatch c Xs Ys) (seq 0 n) !! j
  = Some (Py.slice Xs (j * batch_sz c) (j * batch_sz c + batch_sz c),
          Py.slice Ys (j * batch_sz c) (j * batch_sz c + batch_sz c)).
Proof.
  intros Hj. rewrite list_lookup_fmap, lookup_seq_lt by done. done.
Qed.

Lemma minibatch_rows {X Y} c (Xs : list X) (Ys : list Y) n :
  concat ((map (TheanoLoop.minibatch c Xs Ys) (seq 0 n)).*1)
  = take (n * batch_sz c) Xs.
Proof.
  rewrite <-concat_slices. f_equal.
  rewrite <-list_fmap_compose. done.
Qed.

Lemma arrays_at_length `{Rn : Rng} (HR : RngLaws Rn) {X Y}
    (Xs : list X) (Ys : list Y) i :
  length Ys = length Xs →
  length (TheanoLoop.arrays_at Xs Ys i).1 = length Xs ∧
  length (TheanoLoop.arrays_at Xs Ys i).2 = length Xs.
Proof.
  intros HY. induction i as [|i [IH1 IH2]]; cbn [TheanoLoop.arrays_at].
  - destruct (sklearn_shuffle_perm X Y 0 Xs Ys (eq_sym HY)) as (H1 & H2 & _).
    by rewrite H1, H2.
  - destruct (TheanoLoop.arrays_at Xs Ys i) as [Xi Yi]. simpl in IH1, IH2.
    destruct (sklearn_shuffle_perm X Y (S i) Xi Yi ltac:(congruence))
      as (H1 & H2 & _).
    by rewrite H1, H2.
Qed.

(** The recorder through the epochs, without the calls of
    [get_prediction]. *)
Lemma record_epochs `{Rn : Rng} {X Y} c (Xs : list X) (Ys : list Y) q n :
  Py.for_each
    (TheanoLoop.epoch_without_metrics c TheanoLoop.record_train q)
    (seq 0 n) (Xs, Ys, [])
  = Some (match n with 0 => (Xs, Ys) | S i => TheanoLoop.arrays_at Xs Ys i end,
          concat (map (λ i, map (TheanoLoop.minibatch c
                                   (TheanoLoop.arrays_at Xs Ys i).1
                                   (TheanoLoop.arrays_at Xs Ys i).2)
                                (Py.range (Py.int q)))
                      (seq 0 n))).
Proof.
  induction n as [|n IH]; [done|].
  rewrite seq_S, for_each_app, IH. cbn [mbind option_bind Py.for_each].
  rewrite Nat.add_0_l. unfold TheanoLoop.epoch_without_metrics.
  remember (match n with 0 => (Xs, Ys) | S i => TheanoLoop.arrays_at Xs Ys i end)
    as A eqn:HA.
  destruct A as [Xn Yn]. cbn [fst snd].
  assert (sklearn_shuffle n (Xn, Yn) = TheanoLoop.arrays_at Xs Ys n) as ->
    by (rewrite HA; by destruct n).
  rewrite record_train_on. cbn [mbind option_bind].
  rewrite map_app, concat_app. simpl. rewrite app_nil_r.
  by destruct (TheanoLoop.arrays_at Xs Ys n).
Qed.

(** The batches of the whole loop: epoch after epoch, the consecutive slices
    of the arrays of that epoch. *)
Lemma fit_trained_batches `{Rn : Rng} {X Y} c (Xs : list X) (Ys : list Y) :
  batch_sz c ≠ 0 → print_period c ≠ 0 →
  ∃ st,
    TheanoLoop.fit c TheanoLoop.record_train TheanoLoop.record_get_prediction
      [] [] [] Xs Ys [] = Some st ∧
    TheanoLoop.vars st
    = concat (map (λ i, map (TheanoLoop.minibatch c
                               (TheanoLoop.arrays_at Xs Ys i).1
                               (TheanoLoop.arrays_at Xs Ys i).2)
                            (seq 0 (length Xs / batch_sz c)))
                  (Py.range (max_iter c))).
Proof.
  intros HB Hp.
  pose proof (fit_vars c TheanoLoop.record_train
    TheanoLoop.record_get_prediction [] [] [] Hp record_read_only Xs Ys [])
    as Hf.
  unfold TheanoLoop.fit_without_metrics in Hf.
  destruct (int_truediv (length Xs) (batch_sz c) HB) as (q & Hq & Hi).
  rewrite Hq in Hf. cbn [mbind option_bind] in Hf.
  unfold Py.range at 1 in Hf. rewrite record_epochs in Hf.
  cbn [mbind option_bind snd] in Hf. rewrite Hi, range_of_nat in Hf.
  destruct (TheanoLoop.fit _ _ _ _ _ _ _ _ _) as [st|]; [|done].
  exists st. split; [done|]. by injection Hf.
Qed.

(** C2. With a batch size [B > 0], one epoch of the Theano loop calls
    [train] exactly [N / B] times (the floor of the quotient); call [j] is
    on the rows [j*B, j*B + B) of the arrays as shuffled at the start of the
    epoch, which are [B] rows. The rows visited, in order, are the first
    [N - N mod B] rows, each once: run on the row positions [0, ..., N-1]
    the visited positions are [0, ..., N - N mod B - 1] without repetition,
    and the last [N mod B] rows are not visited. In the whole loop every
    epoch [i] goes through these slices of the arrays of epoch [i], which
    have [N] rows. *)
Theorem epoch_visits_whole_batches_once {X Y} c (Xs : list X) (Ys : list Y) :
  0 < batch_sz c → print_period c ≠ 0 →
  let N := length Xs in
  let B := batch_sz c in
  ∃ bs ps,
    TheanoLoop.trained_batches c Xs Ys = Some bs ∧
    length bs = N / B ∧
    (∀ j, j < N / B →
       bs !! j = Some (Py.slice Xs (j * B) (j * B + B),
                       Py.slice Ys (j * B) (j * B + B)) ∧
       length (Py.slice Xs (j * B) (j * B + B)) = B ∧
       ∀ k, k < B → Py.slice Xs (j * B) (j * B + B) !! k = Xs !! (j * B + k)) ∧
    concat (bs.*1) = take (N - N mod B) Xs ∧
    length (drop (N - N mod B) Xs) = N mod B ∧
    TheanoLoop.trained_batches c (seq 0 N) Ys = Some ps ∧
    concat (ps.*1) = seq 0 (N - N mod B) ∧
    NoDup (concat (ps.*1)) ∧
    (∀ p, p ∈ concat (ps.*1) ↔ p < N - N mod B) ∧
    (∀ Rn : Rng, RngLaws Rn → length Ys = N →
       (∀ i, length (TheanoLoop.arrays_at Xs Ys i).1 = N) ∧
       ∃ st,
         TheanoLoop.fit c TheanoLoop.record_train
           TheanoLoop.record_get_prediction [] [] [] Xs Ys [] = Some st ∧
         TheanoLoop.vars st
         = concat (map (λ i, map (TheanoLoop.minibatch c
                                    (TheanoLoop.arrays_at Xs Ys i).1
                                    (TheanoLoop.arrays_at Xs Ys i).2)
                                 (seq 0 (N / B)))
                       (Py.range (max_iter c)))).
Proof.
  intros HB Hp N B.
  assert (B ≠ 0) as HB0 by (unfold B; lia).
  do 2 eexists.
  split; [by apply theano_trained_batches|].
  split; [by rewrite length_map, length_seq|].
  split.
  { intros j Hj. split; [by apply minibatch_lookup|].
    split; [by apply slice_whole_batch|].
    intros k Hk. rewrite slice_take_drop, lookup_take_lt, lookup_drop by done.
    done. }
  split; [by rewrite minibatch_rows, whole_batches_rows|].
  split.
  { rewrite length_drop. pose proof (Nat.Div0.mod_le N B). fold N. lia. }
  split; [by apply theano_trained_batches|].
  assert (concat ((map (TheanoLoop.minibatch c (seq 0 N) Ys)
            (seq 0 (length (seq 0 N) / batch_sz c))).*1)
          = seq 0 (N - N mod B)) as ->.
  { rewrite minibatch_rows, length_seq, whole_batches_rows by done.
    rewrite take_seq. f_equal. fold B. lia. }
  split; [done|]. split; [apply NoDup_seq|].
  split; [intros p; rewrite elem_of_seq; lia|].
  intros Rn HR HY. split.
  - intros i. by apply (arrays_at_length HR).
  - by apply fit_trained_batches.
Qed.

Lemma epoch_visits_whole_batches_once_witness :
  0 < batch_sz (Schedule 3 10 2) ∧ print_period (Schedule 3 10 2) ≠ 0 ∧
  ∃ bs ps,
    TheanoLoop.trained_batches (Schedule 3 10 2) [0; 1; 2; 3; 4] [5; 6; 7; 8; 9]
      = Some bs ∧
    length bs = 2 ∧
    concat (bs.*1) = [0; 1; 2; 3] ∧
    TheanoLoop.trained_batches (Schedule 3 10 2) (seq 0 5) [5; 6; 7; 8; 9]
      = Some ps ∧
    (∀ p, p ∈ concat (ps.*1) ↔ p < 4).
Proof.
  assert (0 < batch_sz (Schedule 3 10 2)) as HB by (simpl; lia).
  assert (print_period (Schedule 3 10 2) ≠ 0) as Hp by (simpl; lia).
  split; [exact HB|]. split; [exact Hp|].
  destruct (epoch_visits_whole_batches_once (Schedule 3 10 2)
              [0; 1; 2; 3; 4] [5; 6; 7; 8; 9] HB Hp)
    as (bs & ps & H1 & H2 & _ & H4 & _ & H6 & _ & _ & H9 & _).
  exists bs, ps. repeat split; assumption || apply H9.
Defined.

(** ** The loop over the batches of one epoch (TensorFlow notebook) *)

Section TensorFlowRecorder.
Context {X Y : Type}.
Variable c : schedule.
Variables (Xs : list X) (Ys : list Y).

#[local] Abbreviation rec_body :=
  (TensorFlow.batch_body c (λ (b : batch X Y) log, log ++ [b])
     (λ _ _, 0%R) (λ _ _, []) Xs Ys [] [] [] 0).

Lemma recorder_evaluate (log : list (batch X Y)) :
  batch_sz c ≠ 0 →
  TensorFlow.evaluate (X:=X) (Y:=Y) c (λ _ _, 0%R) (λ _ _, []) [] [] [] log
  = Some (0%R, [], None).
Proof.
  intros HB. unfold TensorFlow.evaluate.
  destruct (int_truediv 0 (batch_sz c) HB) as (q & Hq & Hi).
  cbn [length]. rewrite Hq. simpl. rewrite Hi.
  by rewrite Nat.Div0.div_0_l.
Qed.

Lemma recorder_body_whole j st :
  batch_sz c ≠ 0 → print_period c ≠ 0 → length Ys = length Xs →
  j < length Xs / batch_sz c →
  ∃ l o, rec_body j st
         = Some (TensorFlow.FitState
                   (TensorFlow.vars st ++ [TheanoLoop.minibatch c Xs Ys j]) l o).
Proof.
  intros HB Hp HY Hj. unfold TensorFlow.batch_body.
  rewrite decide_True by by apply slice_whole_batch.
  unfold TensorFlow.run_train. simpl.
  rewrite decide_True
    by (split; apply slice_whole_batch; by rewrite ?HY).
  simpl. unfold Py.mod_. rewrite decide_False by done. simpl.
  destruct (decide (j mod print_period c = 0)); [|by do 2 eexists].
  rewrite recorder_evaluate by done. simpl. by do 2 eexists.
Qed.

Lemma recorder_loop js st :
  batch_sz c ≠ 0 → print_period c ≠ 0 → length Ys = length Xs →
  Forall (λ j, j < length Xs / batch_sz c) js →
  ∃ l o, Py.for_each rec_body js st
         = Some (TensorFlow.FitState
                   (TensorFlow.vars st ++ map (TheanoLoop.minibatch c Xs Ys) js)
                   l o).
Proof.
  intros HB Hp HY. revert st.
  induction js as [|j js IH]; intros st Hjs.
  - simpl. rewrite app_nil_r. destruct st. by do 2 eexists.
  - apply Forall_cons in Hjs as [Hj Hjs]. simpl.
    destruct (recorder_body_whole j st HB Hp HY Hj) as (l & o & ->). simpl.
    destruct (IH (TensorFlow.FitState
                    (TensorFlow.vars st ++ [TheanoLoop.minibatch c Xs Ys j]) l o)
                 Hjs) as (l' & o' & ->).
    simpl. rewrite <-app_assoc. by do 2 eexists.
Qed.

(** The guard of the loop body: a batch that does not fill [batch_sz] rows
    is skipped, whatever the operations are. *)
Lemma guard_skips_short_batch {S} (train_op : batch X Y → S → S) cost_op
    predict_op Xtest Ytest_ind Ytest i j st :
  length (Py.slice Xs (j * batch_sz c) (j * batch_sz c + batch_sz c))
    ≠ batch_sz c →
  TensorFlow.batch_body c train_op cost_op predict_op Xs Ys
    Xtest Ytest_ind Ytest i j st = Some st.
Proof. intros Hl. unfold TensorFlow.batch_body. by rewrite decide_False. Qed.

End TensorFlowRecorder.

Lemma tensorflow_trained_batches {X Y} c (Xs : list X) (Ys : list Y) :
  batch_sz c ≠ 0 → print_period c ≠ 0 → length Ys = length Xs →
  TensorFlow.trained_batches c Xs Ys
  = Some (map (TheanoLoop.minibatch c Xs Ys) (seq 0 (length Xs / batch_sz c))).
Proof.
  intros HB Hp HY. unfold TensorFlow.trained_batches.
  destruct (int_truediv (length Xs) (batch_sz c) HB) as (q & -> & Hq). simpl.
  rewrite Hq, range_of_nat.
  destruct (recorder_loop c Xs Ys (seq 0 (length Xs / batch_sz c))
              (TensorFlow.FitState [] [] []) HB Hp HY) as (l & o & ->).
  - apply Forall_forall. intros j Hj%elem_of_seq. lia.
  - done.
Qed.

(** C3, as the code has it. In the Theano notebook as in the TensorFlow
    notebook, an epoch trains on the same batches: every one of them has
    exactly [batch_sz] rows, and together they are the first [N - N mod B]
    rows. When [N] is not a multiple of the batch size the rows left over
    are in none of the batches of either notebook: the Theano loop has no
    shorter last slice. The guard of the TensorFlow loop would skip a slice
    that does not fill the batch. *)
Theorem both_loops_train_on_whole_batches_only {X Y} c
    (Xs : list X) (Ys : list Y) :
  0 < batch_sz c → print_period c ≠ 0 → length Ys = length Xs →
  let N := length Xs in
  let B := batch_sz c in
  ∃ bs,
    TheanoLoop.trained_batches c Xs Ys = Some bs ∧
    TensorFlow.trained_batches c Xs Ys = Some bs ∧
    length bs = N / B ∧
    (∀ b, b ∈ bs → length b.1 = B ∧ length b.2 = B) ∧
    concat (bs.*1) = take (N - N mod B) Xs ∧
    concat (bs.*2) = take (N - N mod B) Ys ∧
    (N mod B ≠ 0 →
       length (TheanoLoop.minibatch c Xs Ys (N / B)).1 = N mod B ∧
       ¬ TheanoLoop.remainder_trained c Xs Ys) ∧
    (∀ i j st,
       length (Py.slice Xs (j * B) (j * B + B)) ≠ B →
       TensorFlow.batch_body c (λ (b : batch X Y) (log : list (batch X Y)), log ++ [b])
         (λ _ _, 0%R) (λ _ _, []) Xs Ys [] [] [] i j st = Some st).
Proof.
  intros HB Hp HY N B.
  assert (B ≠ 0) as HB0 by (unfold B; lia).
  assert (∀ b, b ∈ map (TheanoLoop.minibatch c Xs Ys) (seq 0 (N / B)) →
               length b.1 = B ∧ length b.2 = B) as Hfull.
  { intros b (j & -> & Hj%elem_of_seq)%list_elem_of_fmap. simpl.
    split; apply slice_whole_batch; rewrite ?HY; fold N; fold B; lia. }
  assert (length (TheanoLoop.minibatch c Xs Ys (N / B)).1 = N mod B) as Hrem.
  { simpl. fold B. rewrite slice_take_drop, length_take, length_drop.
    rewrite whole_batches_rows by done. fold N.
    pose proof (Nat.mod_upper_bound N B HB0).
    pose proof (Nat.Div0.mod_le N B). lia. }
  eexists.
  split; [by apply theano_trained_batches|].
  split; [by apply tensorflow_trained_batches|].
  split; [by rewrite length_map, length_seq|].
  split; [done|].
  split; [by rewrite minibatch_rows, whole_batches_rows|].
  split.
  { rewrite <-whole_batches_rows by done. fold N. unfold B.
    rewrite <-concat_slices. f_equal. by rewrite <-list_fmap_compose. }
  split.
  - intros Hmod. split; [done|].
    intros (bs & Hbs & Hin).
    rewrite theano_trained_batches in Hbs by done. injection Hbs as <-.
    apply Hfull in Hin as [Hin _]. fold N in Hin. fold B in Hin.
    rewrite Hrem in Hin. pose proof (Nat.mod_upper_bound N B HB0). lia.
  - intros i j st Hl. by apply guard_skips_short_batch.
Qed.

Lemma both_loops_train_on_whole_batches_only_witness :
  ∃ bs,
    TheanoLoop.trained_batches (Schedule 1 10 2) [0; 1; 2; 3; 4] [5; 6; 7; 8; 9]
      = Some bs ∧
    TensorFlow.trained_batches (Schedule 1 10 2) [0; 1; 2; 3; 4] [5; 6; 7; 8; 9]
      = Some bs ∧
    length bs = 5 / 2 ∧
    (∀ b, b ∈ bs → length b.1 = 2 ∧ length b.2 = 2) ∧
    concat (bs.*1) = take (5 - 5 mod 2) [0; 1; 2; 3; 4] ∧
    concat (bs.*2) = take (5 - 5 mod 2) [5; 6; 7; 8; 9] ∧
    (5 mod 2 ≠ 0 →
       length (TheanoLoop.minibatch (Schedule 1 10 2)
                 [0; 1; 2; 3; 4] [5; 6; 7; 8; 9] (5 / 2)).1 = 5 mod 2 ∧
       ¬ TheanoLoop.remainder_trained (Schedule 1 10 2)
           [0; 1; 2; 3; 4] [5; 6; 7; 8; 9]) ∧
    (∀ i j st,
       length (Py.slice [0; 1; 2; 3; 4] (j * 2) (j * 2 + 2)) ≠ 2 →
       TensorFlow.batch_body (Schedule 1 10 2)
         (λ (b : batch nat nat) (log : list (batch nat nat)), log ++ [b])
         (λ _ _, 0%R) (λ _ _, []) [0; 1; 2; 3; 4] [5; 6; 7; 8; 9] [] [] [] i j st
       = Some st).
Proof.
  apply (both_loops_train_on_whole_batches_only (Schedule 1 10 2)
           [0; 1; 2; 3; 4] [5; 6; 7; 8; 9]); simpl; lia.
Defined.

(** C3, as the spec words it, fails: with five rows and batches of two the
    Theano loop trains on rows 0-1 and 2-3 and on nothing else; the slice
    that holds row 4 is not one of its batches. *)
Lemma theano_remainder_not_trained :
  5 mod 2 ≠ 0 ∧
  TheanoLoop.trained_batches (Schedule 1 10 2) [0; 1; 2; 3; 4] [5; 6; 7; 8; 9]
    = Some [([0; 1], [5; 6]); ([2; 3], [7; 8])] ∧
  TheanoLoop.minibatch (Schedule 1 10 2) [0; 1; 2; 3; 4] [5; 6; 7; 8; 9] (5 / 2)
    = ([4], [9]) ∧
  ¬ TheanoLoop.remainder_trained (Schedule 1 10 2)
      [0; 1; 2; 3; 4] [5; 6; 7; 8; 9].
Proof.
  assert (TheanoLoop.trained_batches (Schedule 1 10 2)
            [0; 1; 2; 3; 4] [5; 6; 7; 8; 9]
          = Some [([0; 1], [5; 6]); ([2; 3], [7; 8])]) as Hbs
    by (by vm_compute).
  split; [done|]. split; [done|]. split; [done|].
  intros (bs & Hbs' & Hin). rewrite Hbs in Hbs'. injection Hbs' as <-.
  apply elem_of_cons in Hin as [Hin|Hin]; [discriminate|].
  apply elem_of_cons in Hin as [Hin|Hin]; [discriminate|].
  by apply elem_of_nil in Hin.
Qed.

(** ** Train / holdout split *)

(** C4. For an array of more than 1000 rows, [Xtrain] is the first
    [N - 1000] rows and [Xtest] the last 1000 rows of the array it is given
    (the shuffled one); together they are the whole array, and no row
    position is in both. With 5000 rows they have 4000 and 1000 rows. The
    labels are split by the same slices. *)
Theorem split_train_holdout {A B} (X : list A) (Y : list B) :
  1000 < length X → length Y = length X →
  let N := length X in
  Split.Xtrain X = take (N - 1000) X ∧
  Split.Xtest X = drop (N - 1000) X ∧
  Split.Ytrain Y = take (N - 1000) Y ∧
  Split.Ytest Y = drop (N - 1000) Y ∧
  length (Split.Xtrain X) = N - 1000 ∧
  length (Split.Xtest X) = 1000 ∧
  Split.Xtrain X ++ Split.Xtest X = X ∧
  (∀ i, i < N - 1000 → Split.Xtrain X !! i = X !! i) ∧
  (∀ i, Split.Xtest X !! i = X !! (N - 1000 + i)) ∧
  Split.Xtrain (seq 0 N) = seq 0 (N - 1000) ∧
  Split.Xtest (seq 0 N) = seq (N - 1000) 1000 ∧
  (∀ p, p ∈ Split.Xtrain (seq 0 N) → p ∉ Split.Xtest (seq 0 N)) ∧
  (NoDup X → ∀ x, x ∈ Split.Xtrain X → x ∉ Split.Xtest X) ∧
  (N = 5000 →
   length (Split.Xtrain X) = 4000 ∧ length (Split.Xtest X) = 1000).
Proof.
  intros HN HY N.
  unfold Split.Xtrain, Split.Xtest, Split.Ytrain, Split.Ytest.
  unfold Py.slice_until_last, Py.slice_from_last. rewrite HY. fold N.
  assert (length (take (N - 1000) X) = N - 1000) as Htr
    by (rewrite length_take; lia).
  assert (length (drop (N - 1000) X) = 1000) as Hte
    by (rewrite length_drop; lia).
  repeat split; try done.
  - apply take_drop.
  - intros i Hi. by apply lookup_take_lt.
  - intros i. apply lookup_drop.
  - rewrite length_seq, take_seq. f_equal. lia.
  - rewrite length_seq, drop_seq. f_equal; lia.
  - rewrite length_seq, take_seq, drop_seq.
    intros p Hp%elem_of_seq Hp'%elem_of_seq. lia.
  - intros Hnd x Hx Hx'. rewrite <-(take_drop (N - 1000) X) in Hnd.
    apply NoDup_app in Hnd as (_ & Hnd & _). by apply (Hnd x).
  - lia.
Qed.

Lemma split_train_holdout_witness :
  1000 < length (seq 0 1003) ∧
  Split.Xtrain (seq 0 1003) = [0; 1; 2] ∧
  length (Split.Xtest (seq 0 1003)) = 1000 ∧
  Split.Xtest (seq 0 1003) !! 0 = Some 3.
Proof.
  pose proof (split_train_holdout (seq 0 1003) (seq 0 1003)
                ltac:(rewrite length_seq; lia) eq_refl) as H.
  cbv zeta in H.
  destruct H as (H1 & _ & _ & _ & _ & H6 & _ & _ & H9 & _).
  split; [rewrite length_seq; lia|].
  split; [rewrite H1, length_seq; reflexivity|].
  split; [exact H6|].
  rewrite H9, length_seq. reflexivity.
Defined.

(** ** The indicator matrix *)

(** The row of the indicator matrix for label [yi]. *)
Lemma setitem2_fresh_row (done_rows : list (list Z)) m (yi : Z) :
  (0 ≤ yi < 10)%Z →
  setitem2 (done_rows ++ replicate (S m) (replicate 10 0%Z))
           (length done_rows) yi 1
  = Some ((done_rows ++ [<[Z.to_nat yi := 1%Z]> (replicate 10 0%Z)])
          ++ replicate m (replicate 10 0%Z)).
Proof.
  intros Hy. unfold setitem2.
  change (replicate (S m) (replicate 10 0%Z))
    with (replicate 10 0%Z :: replicate m (replicate 10 0%Z)).
  rewrite lookup_app_r, Nat.sub_diag by done. cbn [lookup list_lookup].
  cbn [mbind option_bind]. rewrite length_replicate. unfold Py.index.
  rewrite decide_True by lia. cbn [mbind option_bind].
  rewrite insert_app_r_alt, Nat.sub_diag by done. cbn [insert list_insert].
  by rewrite <-app_assoc.
Qed.

Lemma y2indicator_loop (y : list Z) n :
  Forall (λ yi, 0 ≤ yi < 10)%Z y → n ≤ length y →
  Py.for_each (λ i ind, yi ← y !! i; setitem2 ind i yi 1) (seq 0 n)
              (np_zeros2 (length y) 10)
  = Some (map (λ yi, <[Z.to_nat yi := 1%Z]> (replicate 10 0%Z)) (take n y)
          ++ replicate (length y - n) (replicate 10 0%Z)).
Proof.
  intros Hy. induction n as [|n IH]; intros Hn.
  - cbn [seq Py.for_each]. by rewrite take_0, Nat.sub_0_r.
  - rewrite seq_S, for_each_app, IH by lia. cbn [mbind option_bind Py.for_each].
    rewrite Nat.add_0_l.
    destruct (lookup_lt_is_Some_2 y n ltac:(lia)) as [yi Hyi].
    rewrite Hyi. cbn [mbind option_bind].
    assert (0 ≤ yi < 10)%Z as Hr.
    { eapply (proj1 (Forall_forall _ _) Hy), list_elem_of_lookup_2, Hyi. }
    replace (length y - n) with (S (length y - S n)) by lia.
    pose proof (setitem2_fresh_row
      (map (λ yi, <[Z.to_nat yi := 1%Z]> (replicate 10 0%Z)) (take n y))
      (length y - S n) yi Hr) as Hs.
    rewrite length_map, length_take, Nat.min_l in Hs by lia.
    rewrite Hs. cbn [mbind option_bind].
    by rewrite (take_S_r _ _ _ Hyi), map_app.
Qed.

(** The cast leaves an integer that fits in 32 bits as it is. *)
Lemma astype_int32_id (z : Z) :
  (- 2 ^ 31 ≤ z < 2 ^ 31)%Z → astype_int32 z = z.
Proof.
  intros Hz. unfold astype_int32, int_astype_int32.
  rewrite Z.mod_small by lia. lia.
Qed.

Lemma map_astype_int32_id (y : list Z) :
  Forall (λ yi, - 2 ^ 31 ≤ yi < 2 ^ 31)%Z y → map astype_int32 y = y.
Proof.
  induction 1 as [|yi y Hyi _ IH]; [done|].
  cbn [map]. by rewrite astype_int32_id, IH.
Qed.

Lemma y2indicator_rows (y : list Z) :
  Forall (λ yi, 0 ≤ yi < 10)%Z y →
  y2indicator y
  = Some (map (λ yi, <[Z.to_nat yi := 1%Z]> (replicate 10 0%Z)) y).
Proof.
  intros Hy. unfold y2indicator. cbv zeta.
  rewrite map_astype_int32_id by (eapply Forall_impl; [exact Hy|]; simpl; lia).
  rewrite range_of_nat, y2indicator_loop by done.
  by rewrite Nat.sub_diag, take_ge, app_nil_r.
Qed.

Lemma one_hot_row (k : nat) :
  k < 10 →
  let row := <[k := 1%Z]> (replicate 10 0%Z) in
  length row = 10 ∧ row !! k = Some 1%Z ∧
  (∀ k', k' ≠ k → k' < 10 → row !! k' = Some 0%Z) ∧
  foldr Z.add 0%Z row = 1%Z.
Proof.
  intros Hk row. unfold row.
  split; [by rewrite length_insert, length_replicate|].
  split; [apply list_lookup_insert_eq; by rewrite length_replicate|].
  split.
  - intros k' Hne Hk'. rewrite list_lookup_insert_ne by done.
    by apply lookup_replicate_2.
  - do 10 (destruct k as [|k]; [reflexivity|]). lia.
Qed.

(** C5. For labels in [0, 10), [y2indicator(y)] returns a matrix with one
    row of ten entries per label; row [i] holds 1 at column [y[i]] and 0 at
    every other column, so that it sums to 1. For [y = [0, 3, 9]] the rows
    are the unit vectors of the positions 0, 3 and 9. *)
Theorem y2indicator_one_hot (y : list Z) :
  Forall (λ yi, 0 ≤ yi < 10)%Z y →
  ∃ ind,
    y2indicator y = Some ind ∧
    length ind = length y ∧
    (∀ i row, ind !! i = Some row → length row = 10) ∧
    (∀ i yi, y !! i = Some yi →
       ∃ row, ind !! i = Some row ∧
              row !! Z.to_nat yi = Some 1%Z ∧
              (∀ k, k ≠ Z.to_nat yi → k < 10 → row !! k = Some 0%Z) ∧
              foldr Z.add 0%Z row = 1%Z) ∧
    y2indicator [0; 3; 9]%Z
    = Some [[1; 0; 0; 0; 0; 0; 0; 0; 0; 0];
            [0; 0; 0; 1; 0; 0; 0; 0; 0; 0];
            [0; 0; 0; 0; 0; 0; 0; 0; 0; 1]]%Z.
Proof.
  intros Hy. eexists. split; [by apply y2indicator_rows|].
  split; [by rewrite length_map|].
  split.
  { intros i row Hrow. apply list_lookup_fmap_Some in Hrow as (yi & -> & _).
    by rewrite length_insert, length_replicate. }
  split; [|reflexivity].
  intros i yi Hyi. eexists. split.
  { rewrite list_lookup_fmap, Hyi. reflexivity. }
  assert (0 ≤ yi < 10)%Z as Hr.
  { eapply (proj1 (Forall_forall _ _) Hy), list_elem_of_lookup_2, Hyi. }
  apply (one_hot_row (Z.to_nat yi)). lia.
Qed.

Lemma y2indicator_one_hot_witness :
  Forall (λ yi, 0 ≤ yi < 10)%Z [7; 2]%Z ∧
  ∃ ind,
    y2indicator [7; 2]%Z = Some ind ∧
    length ind = 2 ∧
    (∀ i row, ind !! i = Some row → length row = 10) ∧
    (∀ i yi, [7; 2]%Z !! i = Some yi →
       ∃ row, ind !! i = Some row ∧
              row !! Z.to_nat yi = Some 1%Z ∧
              (∀ k, k ≠ Z.to_nat yi → k < 10 → row !! k = Some 0%Z) ∧
              foldr Z.add 0%Z row = 1%Z) ∧
    y2indicator [0; 3; 9]%Z
    = Some [[1; 0; 0; 0; 0; 0; 0; 0; 0; 0];
            [0; 0; 0; 1; 0; 0; 0; 0; 0; 0];
            [0; 0; 0; 0; 0; 0; 0; 0; 0; 1]]%Z.
Proof.
  assert (Forall (λ yi, 0 ≤ yi < 10)%Z [7; 2]%Z) as H
    by (repeat constructor; lia).
  split; [exact H|]. exact (y2indicator_one_hot [7; 2]%Z H).
Defined.

(** ** Normalisation *)

Lemma reversing_rng_laws : RngLaws reversing_rng.
Proof.
  split.
  - intros A l. simpl. apply reverse_Permutation.
  - intros A B i X Y _. simpl. done.
Qed.

Section F32Facts.
Open Scope Z_scope.








End F32Facts.

Section NormalizeFacts.
Import F32.

Lemma is_zero_eqb x : is_zero x → eqb x zero = true.
Proof. by intros [s ->]. Qed.

Lemma eqb_zero_is_zero x : eqb x zero = true → is_zero x.
Proof.
  destruct x as [s|s| |s m e]; [by exists s|..]; unfold eqb, SFeqb; simpl;
    try done; by destruct s.
Qed.












End NormalizeFacts.




(** ** The parameter-update step *)

Section ElementwiseFacts.
Open Scope R_scope.

Lemma elemwise_Some f a b :
  shape a = shape b →
  T.elemwise f a b = Some (Tensor (shape a) (zip_with f (data a) (data b))).
Proof. intros E. unfold T.elemwise. by rewrite decide_True. Qed.

Lemma elemwise_inv f a b t :
  T.elemwise f a b = Some t →
  shape a = shape b ∧ t = Tensor (shape a) (zip_with f (data a) (data b)).
Proof.
  unfold T.elemwise. destruct (decide (shape a = shape b)); [|done].
  by intros [= <-].
Qed.

(** Entry by entry, [(θ + μ v) - η g = θ + (μ v - η g)]. *)
Lemma zip_momentum_assoc (μ η : R) (θ v g : list R) :
  zip_with Rminus (zip_with Rplus θ (map (Rmult μ) v)) (map (Rmult η) g)
  = zip_with Rplus θ (zip_with Rminus (map (Rmult μ) v) (map (Rmult η) g)).
Proof.
  revert v g. induction θ as [|x θ IH]; intros [|y v] [|z g]; simpl;
    try done.
  f_equal; [ring | apply IH].
Qed.

(** With [μ = 0], entry by entry, [θ + (0 v - η g) = θ - η g]. *)
Lemma zip_zero_momentum (η : R) (θ v g : list R) :
  length v = length θ →
  zip_with Rplus θ (zip_with Rminus (map (Rmult 0) v) (map (Rmult η) g))
  = zip_with Rminus θ (map (Rmult η) g).
Proof.
  revert v g. induction θ as [|x θ IH]; intros [|y v] [|z g] Hl; simpl;
    try done.
  f_equal; [ring | apply IH; by injection Hl].
Qed.

End ElementwiseFacts.

(** One entry of an update list that has been evaluated. *)
Ltac invert_update He :=
  let y := fresh "y" in
  let k := fresh "k" in
  let Hy := fresh "Hy" in
  let t := fresh "t" in
  let Ht := fresh "Ht" in
  apply Forall2_cons_inv_l in He as (y & k & Hy & He & ->);
  cbn [fst snd] in Hy;
  apply bind_Some in Hy as (t & Ht & Hy);
  injection Hy as <-.

Section TheanoFacts.
Context {X Y : Type} `{G : Graph X Y} (h : hyper).

(** The new parameter is the old one plus the new momentum change. *)
Lemma update_param_change θ dθ s b v' :
  Theano.update_change h θ dθ s b = Some v' →
  Theano.update_param h θ dθ s b = T.add (s θ) v'.
Proof.
  unfold Theano.update_change, Theano.update_param, T.sub, T.add.
  intros [Hsh ->]%elemwise_inv. simpl in Hsh.
  unfold T.elemwise at 2 3. simpl.
  destruct (decide (shape (s θ) = shape (s dθ))) as [E|E]; [|done]. simpl.
  unfold T.elemwise. simpl. rewrite E, decide_True by done.
  by rewrite zip_momentum_assoc.
Qed.

(** What a successful call of [train] has done: every momentum change is
    its update expression on the old store, and every parameter is the old
    parameter plus the new momentum change. *)
Lemma train_inv b s s' :
  Theano.train h b s = Some (tt, s') →
  ∀ θ, θ ∈ params →
    Theano.update_change h θ (momentum θ) s b = Some (s' (momentum θ)) ∧
    T.add (s θ) (s' (momentum θ)) = Some (s' θ).
Proof.
  unfold Theano.train, Theano.theano_function. intros Ht.
  destruct (Theano.eval_updates _ s b) as [news|] eqn:He; [|done].
  injection Ht as <-. unfold Theano.eval_updates in He.
  apply mapM_Some in He. cbn [app] in He.
  repeat invert_update He.
  apply Forall2_nil_inv_l in He as ->.
  unfold Theano.update_W1, Theano.update_b1, Theano.update_W2,
    Theano.update_b2, Theano.update_W3, Theano.update_b3, Theano.update_W4,
    Theano.update_b4, Theano.update_dW1, Theano.update_db1,
    Theano.update_dW2, Theano.update_db2, Theano.update_dW3,
    Theano.update_db3, Theano.update_dW4, Theano.update_db4 in *.
  intros θ Hθ. unfold params in Hθ.
  repeat (apply elem_of_cons in Hθ as [->|Hθ]);
    [..|by apply elem_of_nil in Hθ];
    (split; [assumption|]);
    match goal with
    | H : Theano.update_change h ?p ?d s b = Some ?v,
      H' : Theano.update_param h ?p ?d s b = Some _
      |- T.add (s ?p) _ = _ =>
        rewrite (update_param_change p d s b v H) in H'; exact H'
    end.
Qed.

Context (HG : GraphLaws G).

Lemma update_change_Some θ s b :
  θ ∈ params → well_shaped s →
  ∃ v', Theano.update_change h θ (momentum θ) s b = Some v' ∧
        shape v' = shape (s θ) ∧ wf v'.
Proof.
  intros Hθ Hs. destruct (Hs θ Hθ) as (Hwθ & Hwv & Hsh).
  destruct (grad_cost_shape h s b θ Hwθ) as [Hg Hwg].
  unfold Theano.update_change, T.sub.
  rewrite elemwise_Some by (simpl; congruence).
  eexists. split; [done|]. split; [done|].
  unfold wf in *. simpl. rewrite length_zip_with, !length_map.
  rewrite Hwv, Hwg, Hg, Hsh. lia.
Qed.

Lemma update_param_Some θ s b :
  θ ∈ params → well_shaped s →
  ∃ θ', Theano.update_param h θ (momentum θ) s b = Some θ' ∧
        shape θ' = shape (s θ) ∧ wf θ'.
Proof.
  intros Hθ Hs. destruct (update_change_Some θ s b Hθ Hs) as (v' & Hv & Hsh & Hw).
  rewrite (update_param_change θ (momentum θ) s b v' Hv).
  destruct (Hs θ Hθ) as (Hwθ & _ & _).
  unfold T.add. rewrite elemwise_Some by done.
  eexists. split; [done|]. split; [done|].
  unfold wf in *. simpl. rewrite length_zip_with, Hwθ, Hw, Hsh. lia.
Qed.

(** Under the invariant a call of [train] succeeds and keeps the
    invariant. *)
Lemma train_total b s :
  well_shaped s →
  ∃ s', Theano.train h b s = Some (tt, s') ∧ well_shaped s'.
Proof.
  intros Hs.
  assert (is_Some (Theano.train h b s)) as [[[] s'] Ht].
  { unfold Theano.train, Theano.theano_function.
    assert (is_Some (Theano.eval_updates
      ([(W1, Theano.update_W1 h); (b1, Theano.update_b1 h);
        (W2, Theano.update_W2 h); (b2, Theano.update_b2 h);
        (W3, Theano.update_W3 h); (b3, Theano.update_b3 h);
        (W4, Theano.update_W4 h); (b4, Theano.update_b4 h)] ++
       [(dW1, Theano.update_dW1 h); (db1, Theano.update_db1 h);
        (dW2, Theano.update_dW2 h); (db2, Theano.update_db2 h);
        (dW3, Theano.update_dW3 h); (db3, Theano.update_db3 h);
        (dW4, Theano.update_dW4 h); (db4, Theano.update_db4 h)]) s b))
      as [news ->]; [|by eexists].
    apply mapM_is_Some. cbn [app].
    repeat apply Forall_cons_2; [..|apply Forall_nil_2];
      cbn [compose fst snd].
    all: match goal with
         | |- is_Some (?e ≫= _) =>
             let e' := eval cbv beta delta
               [Theano.update_W1 Theano.update_b1 Theano.update_W2
                Theano.update_b2 Theano.update_W3 Theano.update_b3
                Theano.update_W4 Theano.update_b4 Theano.update_dW1
                Theano.update_db1 Theano.update_dW2 Theano.update_db2
                Theano.update_dW3 Theano.update_db3 Theano.update_dW4
                Theano.update_db4] in e in
             change e with e'
         end.
    all: match goal with
         | |- is_Some (Theano.update_param _ ?p ?d ?s0 ?b0 ≫= _) =>
             destruct (update_param_Some p s0 b0 ltac:(repeat constructor) Hs)
               as (t & Ht & _);
             change d with (momentum p); rewrite Ht; by eexists
         | |- is_Some (Theano.update_change _ ?p ?d ?s0 ?b0 ≫= _) =>
             destruct (update_change_Some p s0 b0 ltac:(repeat constructor) Hs)
               as (t & Ht & _);
             change d with (momentum p); rewrite Ht; by eexists
         end. }
  exists s'. split; [done|].
  intros θ Hθ. destruct (train_inv b s s' Ht θ Hθ) as [Hv Ha].
  destruct (update_change_Some θ s b Hθ Hs) as (v' & Hv' & Hsh & Hw).
  rewrite Hv in Hv'. injection Hv' as <-.
  destruct (Hs θ Hθ) as (Hwθ & _ & _).
  unfold T.add in Ha. apply elemwise_inv in Ha as [_ Ha].
  rewrite Ha. split; [|by split].
  unfold wf in *. simpl. rewrite length_zip_with, Hwθ, Hw, Hsh. lia.
Qed.

End TheanoFacts.

Lemma l2_graph_laws X Y : GraphLaws (l2_graph X Y).
Proof.
  split.
  - intros h s b θ Hw. split; [done|].
    unfold wf in *. simpl. by rewrite length_map.
  - intros s b. simpl. by rewrite length_map.
Qed.

Lemma l2_graph_reads_params_only X Y : reads_params_only (l2_graph X Y).
Proof. intros h s1 s2 b θ Hθ Hs. simpl. by rewrite (Hs θ Hθ). Qed.

Lemma example_store_well_shaped : well_shaped example_store.
Proof. intros θ _. by repeat split. Qed.

(** C1. One call of [train] succeeds on a store whose tensors fill their
    shapes and, for each of the eight parameters [θ] with momentum change
    [v] and gradient [g = T.grad(cost, θ)] at the values before the call,
    leaves [v_new = μ v - η g] and [θ_new = θ + v_new]. All sixteen right
    hand sides read the store [s] the call started from. *)
Theorem train_momentum_step {X Y} `{G : Graph X Y} (HG : GraphLaws G)
    (h : hyper) (b : batch X Y) (s : store) :
  well_shaped s →
  ∃ s',
    Theano.train h b s = Some (tt, s') ∧
    ∀ θ, θ ∈ params →
      T.sub (T.scal (mu h) (s (momentum θ)))
            (T.scal (lr h) (grad_cost h s b θ)) = Some (s' (momentum θ)) ∧
      T.add (s θ) (s' (momentum θ)) = Some (s' θ).
Proof.
  intros Hs. destruct (train_total h HG b s Hs) as (s' & Ht & _).
  exists s'. split; [done|]. intros θ Hθ.
  exact (train_inv h b s s' Ht θ Hθ).
Qed.

Lemma train_momentum_step_witness :
  well_shaped example_store ∧
  ∃ s',
    Theano.train (G:=l2_graph nat nat) theano_hyper ([0], [0]) example_store
      = Some (tt, s') ∧
    ∀ θ, θ ∈ params →
      T.sub (T.scal (mu theano_hyper) (example_store (momentum θ)))
            (T.scal (lr theano_hyper)
               (grad_cost (Graph:=l2_graph nat nat) theano_hyper
                  example_store ([0], [0]) θ))
        = Some (s' (momentum θ)) ∧
      T.add (example_store θ) (s' (momentum θ)) = Some (s' θ).
Proof.
  split; [exact example_store_well_shaped|].
  exact (train_momentum_step (l2_graph_laws nat nat) theano_hyper
           ([0], [0]) example_store example_store_well_shaped).
Defined.

(** C7. With momentum coefficient [μ = 0] a call of [train] leaves
    [θ_new = θ - η g]: the parameter moves by the new momentum change
    ([θ_new = θ + v_new]), in which the old one has weight 0. Two stores with
    the same parameters and different momentum changes get the same new
    parameters. *)
Theorem zero_momentum_is_plain_gradient_step {X Y} `{G : Graph X Y}
    (HG : GraphLaws G) (h : hyper) (b : batch X Y) (s : store) :
  well_shaped s → mu h = 0%R →
  ∃ s',
    Theano.train h b s = Some (tt, s') ∧
    (∀ θ, θ ∈ params →
       T.sub (s θ) (T.scal (lr h) (grad_cost h s b θ)) = Some (s' θ) ∧
       T.add (s θ) (s' (momentum θ)) = Some (s' θ)) ∧
    (reads_params_only G →
     ∀ s2 s2',
       well_shaped s2 → (∀ p, p ∈ params → s2 p = s p) →
       Theano.train h b s2 = Some (tt, s2') →
       ∀ θ, θ ∈ params → s2' θ = s' θ).
Proof.
  intros Hs Hmu.
  assert (∀ s0 s0', well_shaped s0 → Theano.train h b s0 = Some (tt, s0') →
            ∀ θ, θ ∈ params →
              T.sub (s0 θ) (T.scal (lr h) (grad_cost h s0 b θ))
              = Some (s0' θ)) as Hplain.
  { intros s0 s0' Hs0 Ht θ Hθ.
    destruct (train_inv h b s0 s0' Ht θ Hθ) as [Hv Ha].
    destruct (Hs0 θ Hθ) as (Hwθ & Hwv & Hsh).
    destruct (grad_cost_shape h s0 b θ Hwθ) as [Hg Hwg].
    unfold Theano.update_change, T.sub in Hv.
    apply elemwise_inv in Hv as [_ Hv]. simpl in Hv.
    unfold T.add in Ha. apply elemwise_inv in Ha as [_ Ha].
    rewrite Hv, Hmu in Ha. simpl in Ha.
    rewrite zip_zero_momentum in Ha by (unfold wf in *; congruence).
    unfold T.sub. rewrite elemwise_Some by (simpl; congruence).
    by rewrite Ha. }
  destruct (train_total h HG b s Hs) as (s' & Ht & _).
  exists s'. split; [done|]. split.
  { intros θ Hθ. split; [by apply Hplain|].
    by destruct (train_inv h b s s' Ht θ Hθ). }
  intros Hro s2 s2' Hs2 Heq Ht2 θ Hθ.
  pose proof (Hplain s s' Hs Ht θ Hθ) as H1.
  pose proof (Hplain s2 s2' Hs2 Ht2 θ Hθ) as H2.
  rewrite (Hro h s2 s b θ Hθ Heq), (Heq θ Hθ), H1 in H2.
  by injection H2.
Qed.

Lemma zero_momentum_is_plain_gradient_step_witness :
  well_shaped example_store ∧ mu (Hyper (1 / 10) 0 0) = 0%R ∧
  ∃ s',
    Theano.train (G:=l2_graph nat nat) (Hyper (1 / 10) 0 0) ([0], [0])
      example_store = Some (tt, s') ∧
    (∀ θ, θ ∈ params →
       T.sub (example_store θ)
         (T.scal (lr (Hyper (1 / 10) 0 0))
            (grad_cost (Graph:=l2_graph nat nat) (Hyper (1 / 10) 0 0)
               example_store ([0], [0]) θ))
       = Some (s' θ) ∧
       T.add (example_store θ) (s' (momentum θ)) = Some (s' θ)) ∧
    (reads_params_only (l2_graph nat nat) →
     ∀ s2 s2',
       well_shaped s2 → (∀ p, p ∈ params → s2 p = example_store p) →
       Theano.train (G:=l2_graph nat nat) (Hyper (1 / 10) 0 0) ([0], [0]) s2
         = Some (tt, s2') →
       ∀ θ, θ ∈ params → s2' θ = s' θ).
Proof.
  split; [exact example_store_well_shaped|]. split; [reflexivity|].
  exact (zero_momentum_is_plain_gradient_step (l2_graph_laws nat nat)
           (Hyper (1 / 10) 0 0) ([0], [0]) example_store
           example_store_well_shaped eq_refl).
Defined.

(** ** Shapes *)

Lemma np_zeros_wf sh : wf (np_zeros sh).
Proof. unfold wf, np_zeros. simpl. by rewrite length_replicate. Qed.

(** Every shared variable is a parameter or the momentum change of one. *)
Lemma shared_cases v : ∃ θ, θ ∈ params ∧ (v = θ ∨ v = momentum θ).
Proof.
  destruct v;
    [ exists W1 | exists b1 | exists W2 | exists b2
    | exists W3 | exists b3 | exists W4 | exists b4
    | exists W1 | exists b1 | exists W2 | exists b2
    | exists W3 | exists b3 | exists W4 | exists b4 ];
    (split; [unfold params; repeat constructor | auto]).
Qed.

Lemma initial_store_well_shaped (w : weights) :
  wf (W1_init w) → wf (W2_init w) → wf (W3_init w) → wf (W4_init w) →
  well_shaped (initial_store w).
Proof.
  intros H1 H2 H3 H4 θ Hθ. unfold params in Hθ.
  repeat (apply elem_of_cons in Hθ as [->|Hθ]);
    [..|by apply elem_of_nil in Hθ];
    cbn [initial_store momentum];
    (split; [first [assumption | apply np_zeros_wf]|]);
    (split; [apply np_zeros_wf | reflexivity]).
Qed.

Section ShapeFacts.
Context {X Y : Type} `{G : Graph X Y} (h : hyper).

Lemma train_shapes (b : batch X Y) s s' :
  Theano.train h b s = Some (tt, s') → ∀ v, shape (s' v) = shape (s v).
Proof.
  intros Ht v. destruct (shared_cases v) as (θ & Hθ & Hv).
  destruct (train_inv h b s s' Ht θ Hθ) as [Hc Ha].
  unfold Theano.update_change, T.sub in Hc.
  apply elemwise_inv in Hc as [_ Hc]. simpl in Hc.
  unfold T.add in Ha. apply elemwise_inv in Ha as [_ Ha].
  destruct Hv as [->| ->]; [by rewrite Ha | by rewrite Hc].
Qed.

Lemma train_steps_shapes (bs : list (batch X Y)) s s' :
  Theano.train_steps h bs s = Some s' → ∀ v, shape (s' v) = shape (s v).
Proof.
  unfold Theano.train_steps. revert s.
  induction bs as [|b bs IH]; intros s Hs v; simpl in Hs.
  - by injection Hs as <-.
  - destruct (Theano.train h b s) as [[[] s1]|] eqn:Ht; [|done]. simpl in Hs.
    rewrite (IH s1 Hs v). by apply (train_shapes b).
Qed.

Lemma train_steps_total (HG : GraphLaws G) (bs : list (batch X Y)) s :
  well_shaped s →
  ∃ s', Theano.train_steps h bs s = Some s' ∧ well_shaped s'.
Proof.
  unfold Theano.train_steps. revert s.
  induction bs as [|b bs IH]; intros s Hs; simpl; [by exists s|].
  destruct (train_total h HG b s Hs) as (s1 & -> & Hs1). simpl.
  by apply IH.
Qed.

End ShapeFacts.

(** C8. Every momentum change is created with the shape of its parameter
    and with zeros only. Any number of parameter-update steps from the
    initial values goes through and leaves the shape of each of the sixteen
    tensors as it was; more generally a sequence of steps that goes through
    from any store leaves every shape as it was. *)
Theorem shapes_never_change {X Y} `{G : Graph X Y} (HG : GraphLaws G)
    (h : hyper) (w : weights) (bs : list (batch X Y)) :
  wf (W1_init w) → wf (W2_init w) → wf (W3_init w) → wf (W4_init w) →
  (∀ θ, θ ∈ params →
     shape (initial_store w (momentum θ)) = shape (initial_store w θ) ∧
     data (initial_store w (momentum θ))
     = replicate (length (data (initial_store w θ))) 0%R) ∧
  (∃ s', Theano.train_steps h bs (initial_store w) = Some s' ∧
         ∀ v, shape (s' v) = shape (initial_store w v)) ∧
  (∀ s s', Theano.train_steps h bs s = Some s' →
           ∀ v, shape (s' v) = shape (s v)).
Proof.
  intros H1 H2 H3 H4.
  pose proof (initial_store_well_shaped w H1 H2 H3 H4) as Hws.
  split.
  { intros θ Hθ. destruct (Hws θ Hθ) as (Hwθ & _ & Hsh).
    split; [done|]. rewrite Hwθ, <-Hsh.
    unfold params in Hθ.
    repeat (apply elem_of_cons in Hθ as [->|Hθ]);
      [..|by apply elem_of_nil in Hθ]; reflexivity. }
  split.
  - destruct (train_steps_total h HG bs _ Hws) as (s' & Hs' & _).
    exists s'. split; [done|]. by apply (train_steps_shapes h bs).
  - apply train_steps_shapes.
Qed.

Lemma shapes_never_change_witness :
  wf (W1_init example_weights) ∧ wf (W2_init example_weights) ∧
  wf (W3_init example_weights) ∧ wf (W4_init example_weights) ∧
  ∃ s',
    Theano.train_steps (G:=l2_graph nat nat) theano_hyper
      [([0], [0]); ([1], [1])] (initial_store example_weights) = Some s' ∧
    ∀ v, shape (s' v) = shape (initial_store example_weights v).
Proof.
  repeat (split; [apply np_zeros_wf|]).
  exact (proj1 (proj2
    (shapes_never_change (l2_graph_laws nat nat) theano_hyper example_weights
       [([0], [0]); ([1], [1])]
       (np_zeros_wf _) (np_zeros_wf _) (np_zeros_wf _) (np_zeros_wf _)))).
Defined.

(** ** Evaluating the holdout set does not touch the shared variables *)

Lemma get_prediction_value {X Y} `{G : Graph X Y} h (b : batch X Y) s :
  Theano.get_prediction h b s = Some ((cost h s b, prediction s b), s).
Proof. reflexivity. Qed.

(** C9. A call of [get_prediction] returns the cost and the predictions on
    the store as it is and leaves the store as it is; so does any number of
    calls; and the shared variables at the end of the loop are the ones the
    loop without any call of [get_prediction] ends with. *)
Theorem get_prediction_is_read_only {X Y} `{G : Graph X Y} `{Rn : Rng}
    (h : hyper) :
  (∀ (b : batch X Y) s,
     Theano.get_prediction h b s = Some ((cost h s b, prediction s b), s)) ∧
  (∀ n (b : batch X Y) s,
     Nat.iter n (λ os, s0 ← os; snd <$> Theano.get_prediction h b s0) (Some s)
     = Some s) ∧
  (∀ c (Xtest : list X) (Ytest_ind : list Y) Ytest Xtrain0 Ytrain_ind0 s0,
     print_period c ≠ 0 →
     TheanoLoop.vars <$>
       TheanoLoop.fit c (Theano.train h) (Theano.get_prediction h)
         Xtest Ytest_ind Ytest Xtrain0 Ytrain_ind0 s0
     = TheanoLoop.fit_without_metrics c (Theano.train h)
         Xtrain0 Ytrain_ind0 s0).
Proof.
  split; [apply get_prediction_value|]. split.
  - intros n b s. induction n as [|n IH]; [done|].
    rewrite Nat.iter_succ, IH. done.
  - intros c Xtest Ytest_ind Ytest Xtrain0 Ytrain_ind0 s0 Hp.
    apply fit_vars; [done|].
    intros b s. eexists. apply get_prediction_value.
Qed.

(** ** Evaluation of the holdout set in the TensorFlow notebook *)

Lemma setslice_whole (P : list Z) (m B : nat) (p : list Z) :
  length p = B →
  TensorFlow.setslice (P ++ replicate (B + m) 0%Z) (length P) (length P + B) p
  = Some ((P ++ p) ++ replicate m 0%Z).
Proof.
  intros Hp. unfold TensorFlow.setslice, Py.slice.
  rewrite drop_app_length, length_take, length_replicate.
  replace ((length P + B - length P) `min` (B + m)) with B by lia.
  destruct (decide (length p = B)); [|done].
  rewrite take_app_length. f_equal. rewrite <-app_assoc. do 2 f_equal.
  rewrite drop_app_add'; [|done].
  by rewrite drop_replicate_add.
Qed.

Lemma mismatches_app (p1 p2 t1 t2 : list Z) :
  length p1 = length t1 →
  mismatches (p1 ++ p2) (t1 ++ t2) = mismatches p1 t1 + mismatches p2 t2.
Proof.
  intros Hl. unfold mismatches.
  rewrite zip_with_app by done. by rewrite filter_app, length_app.
Qed.

(** Against predictions that are all 0, the mismatches are the labels other
    than 0. *)
Lemma mismatches_zeros (t : list Z) :
  mismatches (replicate (length t) 0%Z) t
  = length (filter (λ x : Z, x ≠ 0%Z) t).
Proof.
  unfold mismatches. induction t as [|x t IH]; [done|].
  cbn [length replicate zip zip_with]. rewrite !filter_cons. simpl.
  destruct (decide (0%Z ≠ x)), (decide (x ≠ 0%Z)); simpl;
    try congruence; by rewrite ?IH.
Qed.

Section EvaluateFacts.
Context {X Y St : Type}.
Variable c : schedule.
Variable cost_op : batch X Y → St → R.
Variable predict_op : list X → St → list Z.
Variables (Xtest : list X) (Ytest_ind : list Y) (s : St).
Hypothesis HY : length Ytest_ind = length Xtest.
Hypothesis Hpred : ∀ xs, length (predict_op xs s) = length xs.

#[local] Abbreviation fed n :=
  (map (TheanoLoop.minibatch c Xtest Ytest_ind) (seq 0 n)).
#[local] Abbreviation predictions_of bs :=
  (concat (map (λ b : batch X Y, predict_op b.1 s) bs)).

Lemma fed_whole n b :
  n ≤ length Xtest / batch_sz c → b ∈ fed n →
  length b.1 = batch_sz c ∧ length b.2 = batch_sz c.
Proof.
  intros Hn (j & -> & Hj%elem_of_seq)%list_elem_of_fmap. simpl.
  split; apply slice_whole_batch; rewrite ?HY; lia.
Qed.

Lemma predictions_length n :
  n ≤ length Xtest / batch_sz c →
  length (predictions_of (fed n)) = n * batch_sz c.
Proof.
  induction n as [|n IH]; intros Hn; [done|].
  rewrite seq_S, !map_app, concat_app, length_app, IH by lia. simpl.
  rewrite app_nil_r, Hpred, slice_whole_batch by lia. lia.
Qed.

(** The loop over [k], up to any number [n] of whole batches. *)
Lemma test_loop n :
  batch_sz c ≠ 0 → n ≤ length Xtest / batch_sz c →
  Py.for_each (TensorFlow.test_body c cost_op predict_op Xtest Ytest_ind s)
    (seq 0 n) (0%R, replicate (length Xtest) 0%Z)
  = Some (foldl (λ acc b, (acc + cost_op b s)%R) 0%R (fed n),
          predictions_of (fed n)
          ++ replicate (length Xtest - n * batch_sz c) 0%Z).
Proof.
  intros HB. induction n as [|n IH]; intros Hn.
  - cbn [seq Py.for_each map concat foldl app]. by rewrite Nat.sub_0_r.
  - rewrite seq_S, for_each_app, IH by lia.
    cbn [mbind option_bind Py.for_each]. rewrite Nat.add_0_l.
    unfold TensorFlow.test_body at 1.
    assert (length (Py.slice Xtest (n * batch_sz c) (n * batch_sz c + batch_sz c))
            = batch_sz c) as HlX by (apply slice_whole_batch; lia).
    assert (length (Py.slice Ytest_ind (n * batch_sz c) (n * batch_sz c + batch_sz c))
            = batch_sz c) as HlY by (apply slice_whole_batch; rewrite HY; lia).
    unfold TensorFlow.run_cost, TensorFlow.run_predict. cbn [fst snd].
    rewrite !decide_True by done. cbn [mbind option_bind].
    assert (S n * batch_sz c ≤ length Xtest) as Hle.
    { transitivity (length Xtest / batch_sz c * batch_sz c);
        [apply Nat.mul_le_mono_r; lia|].
      rewrite Nat.mul_comm. by apply Nat.Div0.mul_div_le. }
    pose proof (setslice_whole (predictions_of (fed n))
      (length Xtest - S n * batch_sz c) (batch_sz c)
      (predict_op (Py.slice Xtest (n * batch_sz c) (n * batch_sz c + batch_sz c)) s)
      ltac:(by rewrite Hpred)) as Hs.
    rewrite predictions_length in Hs by lia.
    replace (batch_sz c + (length Xtest - S n * batch_sz c))
      with (length Xtest - n * batch_sz c) in Hs by lia.
    rewrite Hs. cbn [mbind option_bind].
    rewrite !map_app, concat_app, foldl_app. simpl.
    by rewrite app_nil_r.
Qed.

End EvaluateFacts.

(** C10. The evaluation of the holdout set feeds the model exactly
    [N / batch_sz] batches (the floor of the quotient), each of [batch_sz]
    rows, which together are the first [N - N mod batch_sz] rows; the cost is
    summed over these batches. The predictions of the last [N mod batch_sz]
    rows are the zeros the array was created with, and the error rate is taken
    over all [N] rows: each of the last rows whose label is not 0 counts as
    an error. *)
Theorem holdout_evaluation_drops_remainder {X Y St} (c : schedule)
    (cost_op : batch X Y → St → R) (predict_op : list X → St → list Z)
    (Xtest : list X) (Ytest_ind : list Y) (Ytest : list Z) (s : St) :
  0 < batch_sz c →
  length Ytest_ind = length Xtest → length Ytest = length Xtest →
  (∀ xs, length (predict_op xs s) = length xs) →
  let N := length Xtest in
  let B := batch_sz c in
  let fed := map (TheanoLoop.minibatch c Xtest Ytest_ind) (seq 0 (N / B)) in
  let fed_pred := concat (map (λ b : batch X Y, predict_op b.1 s) fed) in
  ∃ prediction,
    TensorFlow.evaluate c cost_op predict_op Xtest Ytest_ind Ytest s
    = Some (foldl (λ acc b, (acc + cost_op b s)%R) 0%R fed, prediction,
            error_rate prediction Ytest) ∧
    length fed = N / B ∧
    (∀ b, b ∈ fed → length b.1 = B ∧ length b.2 = B) ∧
    concat (fed.*1) = take (N - N mod B) Xtest ∧
    prediction = fed_pred ++ replicate (N mod B) 0%Z ∧
    length fed_pred = N - N mod B ∧
    (∀ i, N - N mod B ≤ i < N → prediction !! i = Some 0%Z) ∧
    (N ≠ 0 →
     error_rate prediction Ytest
     = Some (Z.of_nat
               (mismatches fed_pred (take (N - N mod B) Ytest)
                + length (filter (λ t : Z, t ≠ 0%Z)
                            (drop (N - N mod B) Ytest)))
             # Pos.of_nat N)%Q).
Proof.
  intros HB HY HT Hpred N B fed fed_pred.
  assert (B ≠ 0) as HB0 by (unfold B; lia).
  assert (N - N / B * B = N mod B) as Hrem.
  { rewrite whole_batches_rows by done. pose proof (Nat.Div0.mod_le N B). lia. }
  assert (length fed_pred = N - N mod B) as Hlen.
  { unfold fed_pred, fed. rewrite predictions_length by done.
    by apply whole_batches_rows. }
  pose proof (Nat.Div0.mod_le N B) as Hmod.
  exists (fed_pred ++ replicate (N mod B) 0%Z).
  split.
  { unfold TensorFlow.evaluate.
    destruct (int_truediv N B HB0) as (q & Hq & Hi). fold N.
    unfold B in Hq. rewrite Hq. cbn [mbind option_bind].
    rewrite Hi, range_of_nat, (test_loop c cost_op predict_op Xtest Ytest_ind s)
      by done.
    cbn [mbind option_bind fst snd]. fold N. fold B. by rewrite Hrem. }
  split; [unfold fed; by rewrite length_map, length_seq|].
  split; [intros b Hb; by apply (fed_whole c Xtest Ytest_ind HY (N / B))|].
  split; [unfold fed; by rewrite minibatch_rows, whole_batches_rows|].
  split; [done|]. split; [done|]. split.
  { intros i Hi. rewrite lookup_app_r by lia.
    apply lookup_replicate_2. lia. }
  intros HN. unfold error_rate.
  rewrite decide_True
    by (rewrite length_app, length_replicate, Hlen, HT; fold N; lia).
  rewrite length_app, length_replicate, Hlen.
  replace (N - N mod B + N mod B) with N by lia.
  do 3 f_equal.
  rewrite <-(take_drop (N - N mod B) Ytest) at 1.
  rewrite mismatches_app by (rewrite length_take, Hlen, HT; fold N; lia).
  f_equal.
  replace (N mod B) with (length (drop (N - N mod B) Ytest)) at 1
    by (rewrite length_drop, HT; fold N; lia).
  apply mismatches_zeros.
Qed.

Lemma holdout_evaluation_drops_remainder_witness :
  0 < batch_sz (Schedule 1 10 2) ∧
  (∀ xs : list nat,
     length ((λ xs (_ : unit), map (λ x, Z.of_nat x + 1)%Z xs) xs tt)
     = length xs) ∧
  ∃ prediction,
    TensorFlow.evaluate (Schedule 1 10 2) (λ _ _, 1%R)
      (λ xs (_ : unit), map (λ x, Z.of_nat x + 1)%Z xs)
      [0; 1; 2; 3; 4] [5; 6; 7; 8; 9] [1; 2; 0; 0; 7]%Z tt
    = Some (foldl (λ acc (b : batch nat nat), (acc + 1)%R) 0%R
              [([0; 1], [5; 6]); ([2; 3], [7; 8])],
            prediction, error_rate prediction [1; 2; 0; 0; 7]%Z) ∧
    prediction = [1; 2; 3; 4; 0]%Z ∧
    error_rate prediction [1; 2; 0; 0; 7]%Z = Some (3 # 5)%Q.
Proof.
  split; [simpl; lia|]. split; [intros xs; apply length_map|].
  destruct (holdout_evaluation_drops_remainder (Schedule 1 10 2)
              (λ _ _, 1%R) (λ xs (_ : unit), map (λ x, Z.of_nat x + 1)%Z xs)
              [0; 1; 2; 3; 4] [5; 6; 7; 8; 9] [1; 2; 0; 0; 7]%Z tt
              ltac:(simpl; lia) eq_refl eq_refl
              ltac:(intros xs; apply length_map))
    as (prediction & He & _ & _ & _ & Hp & _ & _ & Herr).
  exists prediction. split; [exact He|]. split; [exact Hp|].
  rewrite (Herr ltac:(simpl; lia)). reflexivity.
Defined.

(** ** A step computed *)

(** One step from the store in which every tensor is [(1, 2)], with
    [η = 1/10], [μ = 1/2] and the gradient [2 reg θ = θ] of the L2 term:
    the momentum change becomes [(1/2) (1, 2) - (1/10) (1, 2)] and the
    parameter [(1, 2)] plus that. *)
Example train_on_example_store :
  ∃ s',
    Theano.train (G:=l2_graph nat nat) (Hyper (1 / 10) (1 / 2) (1 / 2))
      ([0], [0]) example_store = Some (tt, s') ∧
    s' dW1 = Tensor [2] [4 / 10; 8 / 10]%R ∧
    s' W1 = Tensor [2] [14 / 10; 28 / 10]%R.
Proof.
  eexists. split; [reflexivity|].
  split; cbv [Theano.write_back foldl set_value fst snd]; simpl;
    unfold T.scal; simpl; repeat f_equal; lra.
Qed.

(** The same two updates assigned one after the other would compute the
    momentum change with the gradient at the new [W1], and get another
    value. *)
Example update_in_turn_differs :
  ∃ s1 s2,
    Theano.theano_function (λ _ _, tt)
      [(W1, Theano.update_W1 (G:=l2_graph nat nat) (Hyper (1 / 10) (1 / 2) (1 / 2)));
       (dW1, Theano.update_dW1 (G:=l2_graph nat nat) (Hyper (1 / 10) (1 / 2) (1 / 2)))]
      ([0], [0]) example_store = Some (tt, s1) ∧
    Theano.assign_in_turn
      [(W1, Theano.update_W1 (G:=l2_graph nat nat) (Hyper (1 / 10) (1 / 2) (1 / 2)));
       (dW1, Theano.update_dW1 (G:=l2_graph nat nat) (Hyper (1 / 10) (1 / 2) (1 / 2)))]
      ([0], [0]) example_store = Some s2 ∧
    s1 W1 = s2 W1 ∧
    s1 dW1 = Tensor [2] [4 / 10; 8 / 10]%R ∧
    s2 dW1 = Tensor [2] [36 / 100; 72 / 100]%R.
Proof.
  do 2 eexists. split; [reflexivity|]. split; [reflexivity|].
  split; [reflexivity|].
  split; cbv [Theano.write_back foldl set_value fst snd]; simpl;
    unfold T.scal; simpl; repeat f_equal; lra.
Qed.

(** * Further properties *)

(** ** The error rate *)

Lemma mismatches_le (p t : list Z) : mismatches p t ≤ length p.
Proof.
  unfold mismatches.
  etransitivity; [apply length_filter|].
  rewrite length_zip_with. lia.
Qed.

Lemma mismatches_sym (p t : list Z) : mismatches p t = mismatches t p.
Proof.
  unfold mismatches. revert t.
  induction p as [|x p IH]; intros [|y t]; try done.
  cbn [zip zip_with]. rewrite !filter_cons. simpl.
  specialize (IH t). fold (zip p t) (zip t p).
  destruct (decide (x ≠ y)), (decide (y ≠ x)); simpl;
    first [by rewrite IH | exfalso; naive_solver].
Qed.

Lemma mismatches_zero (p t : list Z) :
  length p = length t → mismatches p t = 0 ↔ p = t.
Proof.
  unfold mismatches. revert t.
  induction p as [|x p IH]; intros [|y t] Hl; try done.
  cbn [zip zip_with]. rewrite filter_cons. simpl. fold (zip p t).
  injection Hl as Hl. specialize (IH t Hl).
  destruct (decide (x ≠ y)) as [Hne|Heq]; simpl.
  - split; [done|]. intros [= -> _]. done.
  - apply dec_stable in Heq as ->. rewrite IH. split; [by intros ->|].
    by intros [= ->].
Qed.

(** X1. On two arrays of the same positive length [error_rate] is the
    number of positions at which they differ over the length: a fraction
    between 0 and 1, which has numerator 0 exactly when the arrays are equal,
    and which does not depend on the order of its arguments. *)
Theorem error_rate_fraction (p t : list Z) :
  length p = length t → p ≠ [] →
  error_rate p t
  = Some (Z.of_nat (mismatches p t) # Pos.of_nat (length p))%Q ∧
  (0 <= Z.of_nat (mismatches p t) # Pos.of_nat (length p))%Q ∧
  (Z.of_nat (mismatches p t) # Pos.of_nat (length p) <= 1)%Q ∧
  (mismatches p t = 0 ↔ p = t) ∧
  error_rate t p = error_rate p t.
Proof.
  intros Hl Hp.
  assert (length p ≠ 0) as Hn by (by destruct p).
  split; [unfold error_rate; by rewrite decide_True|].
  split; [unfold Qle; simpl; lia|].
  split.
  { unfold Qle. simpl.
    rewrite <-(positive_nat_Z (Pos.of_nat (length p))), Nat2Pos.id by done.
    pose proof (mismatches_le p t). lia. }
  split; [by apply mismatches_zero|].
  unfold error_rate. rewrite (mismatches_sym t p), <-Hl.
  destruct (decide (length p = length t ∧ length p ≠ 0)) as [|Hne];
    [by rewrite decide_True|].
  by destruct Hne.
Qed.

Lemma error_rate_fraction_witness :
  length [1; 2; 3]%Z = length [1; 0; 0]%Z ∧ [1; 2; 3]%Z ≠ [] ∧
  error_rate [1; 2; 3]%Z [1; 0; 0]%Z = Some (2 # 3)%Q ∧
  error_rate [1; 0; 0]%Z [1; 2; 3]%Z = error_rate [1; 2; 3]%Z [1; 0; 0]%Z.
Proof.
  destruct (error_rate_fraction [1; 2; 3]%Z [1; 0; 0]%Z eq_refl
              ltac:(discriminate)) as (H1 & _ & _ & _ & H5).
  split; [reflexivity|]. split; [discriminate|]. split; [exact H1|exact H5].
Defined.

(** ** The rectifier *)

Section ReluFacts.
Open Scope R_scope.

(** X2. [relu(a) = a * (a > 0)] is the larger of [a] and 0, as [tf.nn.relu]
    of the other notebook: it is never negative, it is 0 exactly on the
    entries that are not positive, it leaves the positive entries as they
    are, it is monotone, and applying it twice is applying it once. *)
Theorem relu_is_max (a : R) :
  relu a = Rmax a 0 ∧
  0 <= relu a ∧
  (relu a = 0 ↔ a <= 0) ∧
  (0 < a → relu a = a) ∧
  relu (relu a) = relu a ∧
  ∀ b, a <= b → relu a <= relu b.
Proof.
  assert (∀ x, relu x = Rmax x 0) as Hmax.
  { intros x. unfold relu, Rmax.
    destruct (Rlt_dec 0 x), (Rle_dec x 0); lra. }
  split; [apply Hmax|]. rewrite !Hmax.
  split; [apply Rmax_r|].
  split; [unfold Rmax; destruct (Rle_dec a 0); lra|].
  split; [intros Ha; unfold Rmax; destruct (Rle_dec a 0); lra|].
  split; [unfold Rmax; destruct (Rle_dec a 0), (Rle_dec 0 0); try lra;
          destruct (Rle_dec a 0); lra|].
  intros b Hab. rewrite Hmax. unfold Rmax.
  destruct (Rle_dec a 0), (Rle_dec b 0); lra.
Qed.

End ReluFacts.

(** ** Labels outside [0, 10) *)

Lemma index_of_label (yi : Z) :
  Py.index 10 yi
  = if decide (-10 ≤ yi < 10)%Z then Some (Z.to_nat (yi mod 10)) else None.
Proof.
  unfold Py.index.
  destruct (decide (0 ≤ yi < Z.of_nat 10)%Z) as [H1|H1].
  - rewrite decide_True by lia. by rewrite Z.mod_small.
  - destruct (decide (- Z.of_nat 10 ≤ yi < 0)%Z) as [H2|H2].
    + rewrite decide_True by lia. do 2 f_equal.
      apply (Z.mod_unique _ _ (-1)); lia.
    + by rewrite decide_False by lia.
Qed.

Lemma setitem2_next_row (done_rows : list (list Z)) m (yi : Z) :
  setitem2 (done_rows ++ replicate (S m) (replicate 10 0%Z))
           (length done_rows) yi 1
  = if decide (-10 ≤ yi < 10)%Z
    then Some ((done_rows ++ [<[Z.to_nat (yi mod 10) := 1%Z]> (replicate 10 0%Z)])
               ++ replicate m (replicate 10 0%Z))
    else None.
Proof.
  unfold setitem2.
  change (replicate (S m) (replicate 10 0%Z))
    with (replicate 10 0%Z :: replicate m (replicate 10 0%Z)).
  rewrite lookup_app_r, Nat.sub_diag by done. cbn [lookup list_lookup].
  cbn [mbind option_bind]. rewrite length_replicate, index_of_label.
  destruct (decide (-10 ≤ yi < 10)%Z); [|done]. cbn [mbind option_bind].
  rewrite insert_app_r_alt, Nat.sub_diag by done. cbn [insert list_insert].
  by rewrite <-app_assoc.
Qed.

(** The loop of [y2indicator] over the first [n] labels. *)
Lemma y2indicator_prefix (y : list Z) n :
  n ≤ length y →
  Py.for_each (λ i ind, yi ← y !! i; setitem2 ind i yi 1) (seq 0 n)
              (np_zeros2 (length y) 10)
  = if decide (Forall (λ yi, -10 ≤ yi < 10)%Z (take n y))
    then Some (map (λ yi, <[Z.to_nat (yi mod 10) := 1%Z]> (replicate 10 0%Z))
                   (take n y)
               ++ replicate (length y - n) (replicate 10 0%Z))
    else None.
Proof.
  induction n as [|n IH]; intros Hn.
  - cbn [seq Py.for_each]. rewrite take_0, decide_True by constructor.
    by rewrite Nat.sub_0_r.
  - rewrite seq_S, for_each_app, IH by lia.
    destruct (lookup_lt_is_Some_2 y n ltac:(lia)) as [yi Hyi].
    rewrite (take_S_r _ _ _ Hyi).
    destruct (decide (Forall _ (take n y))) as [Hok|Hbad].
    + cbn [mbind option_bind Py.for_each]. rewrite Nat.add_0_l, Hyi.
      cbn [mbind option_bind].
      replace (length y - n) with (S (length y - S n)) by lia.
      pose proof (setitem2_next_row
        (map (λ yi, <[Z.to_nat (yi mod 10) := 1%Z]> (replicate 10 0%Z)) (take n y))
        (length y - S n) yi) as Hs.
      rewrite length_map, length_take, Nat.min_l in Hs by lia.
      rewrite Hs.
      destruct (decide (-10 ≤ yi < 10)%Z) as [Hy|Hy].
      * rewrite decide_True by (apply Forall_app; split; [done|by constructor]).
        cbn [mbind option_bind]. by rewrite map_app.
      * rewrite decide_False; [done|].
        intros [_ Hl]%Forall_app. rewrite Forall_singleton in Hl. lia.
    + cbn [mbind option_bind]. rewrite decide_False; [done|].
      by intros [Hl _]%Forall_app.
Qed.

(** X3. [y2indicator] goes through exactly when every label, as the
    32-bit integer that [astype(np.int32)] makes of it, is an index of a row
    of ten entries, that is in [-10, 10): the cast of a label from 10 on or
    below -10 is an [IndexError], and a negative cast [-k] marks column
    [10 - k] (the label [-1] gives the row of the label 9). The cast leaves
    an integer label that fits in 32 bits as it is and reduces the other
    ones modulo 2^32 (the label 2^32 + 3 gives the row of the label 3); it
    cuts a [float32] label to its integer part (the label -10.5 gives the
    row of the label 0, and 9.75 the row of 9). No labels give the matrix
    without rows. *)
Theorem y2indicator_index_error {A} `{AsInt32 A} (y : list A) :
  y2indicator y
  = (if decide (Forall (λ ci, -10 ≤ ci < 10)%Z (map astype_int32 y))
     then Some (map (λ ci, <[Z.to_nat (ci mod 10) := 1%Z]> (replicate 10 0%Z))
                    (map astype_int32 y))
     else None) ∧
  (is_Some (y2indicator y)
   ↔ Forall (λ yi, -10 ≤ astype_int32 yi < 10)%Z y) ∧
  y2indicator (@nil A) = Some [] ∧
  (∀ z : Z, - 2 ^ 31 ≤ z < 2 ^ 31 → astype_int32 z = z)%Z ∧
  (∀ z : Z, astype_int32 (z + 2 ^ 32) = astype_int32 z)%Z ∧
  y2indicator [-1]%Z = y2indicator [9]%Z ∧
  y2indicator [3; 10]%Z = None ∧
  y2indicator [2 ^ 32 + 3]%Z = y2indicator [3]%Z ∧
  y2indicator [S754_finite true 11010048 (-20)] = y2indicator [F32.zero] ∧
  y2indicator [S754_finite false 10223616 (-20)] = y2indicator [F32.of_Z 9] ∧
  y2indicator [F32.of_Z 10] = None ∧
  y2indicator [S754_nan] = None.
Proof.
  assert (y2indicator y
          = (if decide (Forall (λ ci, -10 ≤ ci < 10)%Z (map astype_int32 y))
             then Some (map (λ ci, <[Z.to_nat (ci mod 10) := 1%Z]>
                                     (replicate 10 0%Z)) (map astype_int32 y))
             else None)) as Heq.
  { unfold y2indicator. cbv zeta.
    rewrite <-(length_map astype_int32 y).
    rewrite range_of_nat, y2indicator_prefix by done.
    rewrite take_ge by done.
    destruct (decide (Forall _ (map astype_int32 y))); [|done].
    by rewrite Nat.sub_diag, app_nil_r. }
  split; [done|]. split.
  { rewrite Heq.
    destruct (decide (Forall _ (map astype_int32 y))) as [Hy|Hy];
      rewrite Forall_fmap in Hy.
    - split; [done|]. by eexists.
    - split; [by intros [? [=]]|done]. }
  split; [done|]. split; [apply astype_int32_id|]. split.
  { intros z. unfold astype_int32, int_astype_int32.
    replace (z + 2 ^ 32 + 2 ^ 31)%Z with (z + 2 ^ 31 + 1 * 2 ^ 32)%Z by lia.
    by rewrite Z.mod_add. }
  repeat split; reflexivity.
Qed.

(** ** Decoding the indicator matrix *)

Lemma argmax_one_hot (k : nat) :
  k < 10 →
  argmax Z.ltb (<[k := 1%Z]> (replicate 10 0%Z)) = Some k.
Proof. intros Hk. do 10 (destruct k as [|k]; [reflexivity|]). lia. Qed.

(** X4. The position of the largest entry of row [i] of [y2indicator(y)] is
    the label [y[i]]: [argmax] along the rows decodes the indicator matrix,
    and the predictions read off the indicator matrix of the labels have no
    error. *)
Theorem argmax_decodes_y2indicator (y : list Z) :
  Forall (λ yi, 0 ≤ yi < 10)%Z y →
  ∃ ind pred,
    y2indicator y = Some ind ∧
    argmax_axis1 ind = Some pred ∧
    pred = y ∧
    (y ≠ [] → error_rate pred y = Some (0 # Pos.of_nat (length y))%Q).
Proof.
  intros Hy. exists (map (λ yi, <[Z.to_nat yi := 1%Z]> (replicate 10 0%Z)) y), y.
  split; [by apply y2indicator_rows|].
  split.
  - unfold argmax_axis1. apply mapM_Some, Forall2_fmap_l, Forall_Forall2_diag.
    eapply Forall_impl; [exact Hy|]. intros yi Hyi. cbv beta in Hyi.
    change (Z.of_nat <$> argmax Z.ltb (<[Z.to_nat yi := 1%Z]> (replicate 10 0%Z))
            = Some yi).
    rewrite argmax_one_hot by lia. simpl. f_equal. lia.
  - split; [done|]. intros Hne. unfold error_rate.
    rewrite decide_True by (by destruct y).
    by rewrite (proj2 (mismatches_zero y y eq_refl) eq_refl).
Qed.

Lemma argmax_decodes_y2indicator_witness :
  Forall (λ yi, 0 ≤ yi < 10)%Z [7; 2; 2]%Z ∧
  ∃ ind,
    y2indicator [7; 2; 2]%Z = Some ind ∧
    argmax_axis1 ind = Some [7; 2; 2]%Z.
Proof.
  assert (Forall (λ yi, 0 ≤ yi < 10)%Z [7; 2; 2]%Z) as H
    by (repeat constructor; lia).
  split; [exact H|].
  destruct (argmax_decodes_y2indicator [7; 2; 2]%Z H)
    as (ind & pred & H1 & H2 & -> & _).
  by exists ind.
Defined.

(** ** The cost *)

Section CostFacts.
Open Scope R_scope.

Lemma sum_of_squares_nonneg (l : list R) :
  0 <= foldr Rplus 0 (zip_with Rmult l l).
Proof.
  induction l as [|x l IH]; simpl; [lra|]. pose proof (Rle_0_sqr x).
  unfold Rsqr in *. lra.
Qed.

Lemma sum_of_squares_zero (l : list R) :
  foldr Rplus 0 (zip_with Rmult l l) = 0 ↔ Forall (λ x, x = 0) l.
Proof.
  induction l as [|x l IH]; simpl; [split; [constructor|done]|].
  pose proof (sum_of_squares_nonneg l) as Hl.
  pose proof (Rle_0_sqr x) as Hx. unfold Rsqr in Hx.
  rewrite Forall_cons, <-IH. split.
  - intros Hs. assert (x * x = 0) as H0 by lra.
    apply Rmult_integral in H0. split; [tauto | lra].
  - intros [-> ->]. lra.
Qed.

Lemma sum_nonneg (l : list R) :
  Forall (λ x, 0 <= x) l → 0 <= foldr Rplus 0 l.
Proof.
  induction 1 as [|x l Hx _ IH]; simpl; lra.
Qed.

Lemma sum_nonneg_zero (l : list R) :
  Forall (λ x, 0 <= x) l →
  foldr Rplus 0 l = 0 ↔ Forall (λ x, x = 0) l.
Proof.
  induction 1 as [|x l Hx Hl IH]; simpl; [split; [constructor|done]|].
  pose proof (sum_nonneg l Hl). rewrite Forall_cons, <-IH.
  split; [intros; split; lra | intros [-> ->]; lra].
Qed.

Lemma reg_cost_nonneg h s : 0 <= reg h → 0 <= reg_cost h s.
Proof.
  intros Hr. unfold reg_cost. apply Rmult_le_pos; [done|].
  apply sum_nonneg, Forall_fmap, Forall_true. intros p. simpl.
  apply sum_of_squares_nonneg.
Qed.

(** X5. The L2 term of the cost is 0 when [reg = 0], whatever the
    parameters; it is never negative when [reg >= 0]; for [reg > 0] it is 0
    exactly when every entry of every parameter is 0; and it reads the eight
    parameters only, not the momentum changes. *)
Theorem reg_cost_is_a_penalty (h : hyper) (s : store) :
  (reg h = 0 → reg_cost h s = 0) ∧
  (0 <= reg h → 0 <= reg_cost h s) ∧
  (0 < reg h →
   (reg_cost h s = 0 ↔ ∀ p, p ∈ params → Forall (λ x, x = 0) (data (s p)))) ∧
  (∀ s', (∀ p, p ∈ params → s' p = s p) → reg_cost h s' = reg_cost h s).
Proof.
  split; [intros Hr; unfold reg_cost; rewrite Hr; ring|].
  split; [apply reg_cost_nonneg|].
  split.
  - intros Hr. unfold reg_cost.
    assert (Forall (λ x, 0 <= x) (map (λ p, sum_of_squares (s p)) params))
      as Hnn.
    { apply Forall_fmap, Forall_true. intros p. apply sum_of_squares_nonneg. }
    split.
    + intros H0. apply Rmult_integral in H0 as [H0|H0]; [lra|].
      apply sum_nonneg_zero in H0; [|done].
      rewrite Forall_fmap, Forall_forall in H0.
      intros p Hp. by apply sum_of_squares_zero, H0.
    + intros Hz.
      assert (foldr Rplus 0 (map (λ p, sum_of_squares (s p)) params) = 0)
        as ->; [|ring].
      apply sum_nonneg_zero; [done|].
      rewrite Forall_fmap, Forall_forall. intros p Hp.
      by apply sum_of_squares_zero, Hz.
  - intros s' Hs. unfold reg_cost. do 2 f_equal.
    apply map_ext_in. intros p Hp%list_elem_of_In. by rewrite Hs.
Qed.

Lemma row_entropy_one_hot (k : nat) (row : list R) :
  (k < 10)%nat → length row = 10%nat →
  foldr Rplus 0
    (zip_with (λ yk pk, yk * ln pk)
       (map IZR (<[k := 1%Z]> (replicate 10 0%Z))) row)
  = ln (nth k row 0).
Proof.
  intros Hk Hl.
  do 10 (destruct row as [|? row]; [done|]). destruct row; [|done].
  do 10 (destruct k as [|k]; [simpl; ring|]). lia.
Qed.

Lemma entropy_of_rows (y : list Z) (pY : list (list R)) :
  Forall (λ yi, 0 ≤ yi < 10)%Z y →
  Forall (λ row, length row = 10%nat) pY →
  foldr Rplus 0
    (zip_with (λ y p, foldr Rplus 0 (zip_with (λ yk pk, yk * ln pk) y p))
       (as_floats (map (λ yi, <[Z.to_nat yi := 1%Z]> (replicate 10 0%Z)) y)) pY)
  = foldr Rplus 0 (zip_with (λ yi row, ln (nth (Z.to_nat yi) row 0)) y pY).
Proof.
  intros Hy. revert pY. induction Hy as [|yi y Hyi _ IH]; intros pY HpY.
  - done.
  - destruct HpY as [|row pY Hrow HpY]; [done|].
    cbn [as_floats map zip_with foldr]. f_equal.
    + apply row_entropy_one_hot; [lia|done].
    + by apply IH.
Qed.

Lemma indicator_shape (y : list Z) (pY : list (list R)) :
  Forall (λ row, length row = 10%nat) pY →
  Forall2 (λ y p : list R, length y = length p)
    (as_floats (map (λ yi, <[Z.to_nat yi := 1%Z]> (replicate 10 0%Z)) y)) pY
  ↔ length pY = length y.
Proof.
  intros HpY. split.
  - intros H%Forall2_length. unfold as_floats in H.
    by rewrite !length_map in H.
  - revert pY HpY. induction y as [|yi y IH]; intros [|row pY] HpY Hl;
      try done; try by constructor.
    apply Forall_cons in HpY as [Hrow HpY].
    cbn [as_floats map]. constructor.
    + by rewrite length_map, length_insert, length_replicate, Hrow.
    + apply IH; [done|]. by injection Hl.
Qed.

Lemma log_sum_nonpos (y : list Z) (pY : list (list R)) :
  Forall (λ yi, 0 ≤ yi < 10)%Z y →
  Forall (λ row, length row = 10%nat) pY →
  Forall (Forall (λ p, 0 < p <= 1)) pY →
  foldr Rplus 0 (zip_with (λ yi row, ln (nth (Z.to_nat yi) row 0)) y pY) <= 0.
Proof.
  intros Hy. revert pY. induction Hy as [|yi y Hyi _ IH]; intros pY HpY Hp.
  - simpl. lra.
  - destruct HpY as [|row pY Hrow HpY]; [simpl; lra|].
    apply Forall_cons in Hp as [Hprow Hp]. simpl.
    specialize (IH pY HpY Hp).
    assert (ln (nth (Z.to_nat yi) row 0) <= 0); [|lra].
    assert (0 < nth (Z.to_nat yi) row 0 <= 1) as [Hpos Hle].
    { rewrite Forall_forall in Hprow. apply Hprow, list_elem_of_In, nth_In.
      lia. }
    destruct Hle as [Hlt|Heq]; [|rewrite Heq, ln_1; lra].
    pose proof (ln_increasing _ _ Hpos Hlt) as Hi. rewrite ln_1 in Hi. lra.
Qed.

(** X6. With the indicator matrix of labels in [0, 10) as [Y] and a [pY]
    of rows of ten entries: when [pY] has another number of rows than there
    are labels, [-(Y * log(pY)).sum()] raises; otherwise, when every entry
    of [pY] is positive, it is minus the sum over the rows of the logarithm
    of the entry of [pY] at the label of the row (the other entries of [pY]
    do not enter), and the cost is that plus the L2 term; when some entry of
    [pY] is not positive neither of them is a number. When the entries of
    [pY] are in (0, 1] the cross-entropy is not negative, and neither is the
    cost for [reg >= 0]. *)
Theorem cross_entropy_of_indicator (h : hyper) (s : store) (y : list Z)
    (pY : list (list R)) :
  Forall (λ yi, 0 ≤ yi < 10)%Z y →
  Forall (λ row, length row = 10%nat) pY →
  let at_labels :=
    - foldr Rplus 0 (zip_with (λ yi row, ln (nth (Z.to_nat yi) row 0)) y pY) in
  ∃ ind,
    y2indicator y = Some ind ∧
    (length pY ≠ length y →
     cross_entropy (as_floats ind) pY = None ∧
     cost_of h s (as_floats ind) pY = None) ∧
    (length pY = length y →
     (Forall (Forall (λ p, 0 < p)) pY →
      cross_entropy (as_floats ind) pY = Some (Finite at_labels) ∧
      cost_of h s (as_floats ind) pY
      = Some (Finite (at_labels + reg_cost h s))) ∧
     (¬ Forall (Forall (λ p, 0 < p)) pY →
      cross_entropy (as_floats ind) pY = Some NotFinite ∧
      cost_of h s (as_floats ind) pY = Some NotFinite) ∧
     (Forall (Forall (λ p, 0 < p <= 1)) pY →
      0 <= at_labels ∧ (0 <= reg h → 0 <= at_labels + reg_cost h s))).
Proof.
  intros Hy HpY at_labels. eexists. split; [by apply y2indicator_rows|].
  pose proof (indicator_shape y pY HpY) as Hshape.
  split.
  { intros Hl. unfold cost_of, cross_entropy.
    rewrite decide_False by (by rewrite Hshape). done. }
  intros Hl. split; [|split].
  - intros Hpos. unfold cost_of, cross_entropy.
    rewrite decide_True by (by rewrite Hshape).
    rewrite decide_True by done. cbn [mbind option_bind].
    unfold at_labels. by rewrite entropy_of_rows.
  - intros Hneg. unfold cost_of, cross_entropy.
    rewrite decide_True by (by rewrite Hshape).
    by rewrite decide_False by done.
  - intros Hp. pose proof (log_sum_nonpos y pY Hy HpY Hp) as Hle.
    unfold at_labels. split; [lra|]. intros Hr.
    pose proof (reg_cost_nonneg h s Hr). lra.
Qed.

Lemma cross_entropy_of_indicator_witness :
  ∃ ind,
    y2indicator [1%Z; 0%Z] = Some ind ∧
    cross_entropy (as_floats ind) [replicate 10 (1 / 2); replicate 10 1]
    = Some (Finite (- (ln (1 / 2) + (ln 1 + 0)))) ∧
    cross_entropy (as_floats ind) [replicate 10 (1 / 2)] = None ∧
    cross_entropy (as_floats ind)
      [replicate 10 (1 / 2); 0 :: replicate 9 1] = Some NotFinite.
Proof.
  assert (Forall (λ yi, 0 ≤ yi < 10)%Z [1%Z; 0%Z]) as Hy
    by (repeat constructor; lia).
  destruct (cross_entropy_of_indicator theano_hyper example_store [1%Z; 0%Z]
              [replicate 10 (1 / 2); replicate 10 1] Hy
              ltac:(repeat constructor))
    as (ind & Hind & _ & Hsame).
  destruct (cross_entropy_of_indicator theano_hyper example_store [1%Z; 0%Z]
              [replicate 10 (1 / 2)] Hy ltac:(repeat constructor))
    as (ind1 & Hind1 & Hshort & _).
  destruct (cross_entropy_of_indicator theano_hyper example_store [1%Z; 0%Z]
              [replicate 10 (1 / 2); 0 :: replicate 9 1] Hy
              ltac:(repeat constructor))
    as (ind2 & Hind2 & _ & Hzero).
  rewrite Hind in Hind1, Hind2.
  injection Hind1 as <-. injection Hind2 as <-.
  exists ind. split; [exact Hind|]. split; [|split].
  - apply (Hsame eq_refl). repeat constructor; lra.
  - by apply Hshort.
  - apply (Hzero eq_refl). intros H.
    apply Forall_cons in H as [_ H]. apply Forall_cons in H as [H _].
    apply Forall_cons in H as [H _]. lra.
Defined.

End CostFacts.

(** ** What normalisation keeps *)



(** ** The split on any number of rows *)

Lemma trained_batches_nil {X Y} c (Ys : list Y) :
  batch_sz c ≠ 0 →
  TheanoLoop.trained_batches (X:=X) c [] Ys = Some [].
Proof.
  intros HB. unfold TheanoLoop.trained_batches.
  destruct (int_truediv 0 (batch_sz c) HB) as (q & Hq & Hi).
  cbn [length]. rewrite Hq. cbn [mbind option_bind].
  unfold TheanoLoop.batches_loop. rewrite Hi, Nat.Div0.div_0_l. done.
Qed.

(** X9. For an array of any number of rows the two slices of the split are
    a partition of it: [Xtrain] followed by [Xtest] is the array, [Xtest]
    has [min(N, 1000)] rows and [Xtrain] the other ones. With at most 1000
    rows nothing is an error: [Xtrain] is empty, [Xtest] is the whole array,
    and an epoch of the loop on the training part trains on no batch. *)
Theorem split_is_a_partition {A B} (X : list A) (Y : list B) :
  Split.Xtrain X ++ Split.Xtest X = X ∧
  length (Split.Xtrain X) = length X - 1000 ∧
  length (Split.Xtest X) = length X `min` 1000 ∧
  (length X ≤ 1000 →
   Split.Xtrain X = [] ∧ Split.Xtest X = X ∧
   ∀ c, batch_sz c ≠ 0 →
        TheanoLoop.trained_batches c (Split.Xtrain X) (Split.Ytrain Y)
        = Some []).
Proof.
  unfold Split.Xtrain, Split.Xtest, Split.Ytrain.
  unfold Py.slice_until_last, Py.slice_from_last.
  split; [apply take_drop|].
  split; [rewrite length_take; lia|].
  split; [rewrite length_drop; lia|].
  intros HN. replace (length X - 1000) with 0 by lia.
  rewrite take_0, drop_0. split; [done|]. split; [done|].
  intros c HB. by apply trained_batches_nil.
Qed.

Lemma split_is_a_partition_witness :
  Split.Xtrain [1; 2; 3] = [] ∧ Split.Xtest [1; 2; 3] = [1; 2; 3] ∧
  ∀ c, batch_sz c ≠ 0 →
       TheanoLoop.trained_batches c (Split.Xtrain [1; 2; 3])
         (Split.Ytrain [4; 5; 6])
       = Some [].
Proof.
  apply (proj2 (proj2 (proj2 (split_is_a_partition [1; 2; 3] [4; 5; 6])))).
  simpl. lia.
Defined.

(** X10. The split cuts the features and the labels at the same row: when
    the two arrays have the same length, pairing the rows of [Xtrain] with
    [Ytrain] (and of [Xtest] with [Ytest]) gives the pairs of the unsplit
    arrays, in order, so that every row keeps its own label. *)
Theorem split_keeps_rows_and_labels_together {A B} (X : list A) (Y : list B) :
  length X = length Y →
  zip (Split.Xtrain X) (Split.Ytrain Y) = Split.Xtrain (zip X Y) ∧
  zip (Split.Xtest X) (Split.Ytest Y) = Split.Xtest (zip X Y) ∧
  length (Split.Xtrain X) = length (Split.Ytrain Y) ∧
  length (Split.Xtest X) = length (Split.Ytest Y) ∧
  zip (Split.Xtrain X) (Split.Ytrain Y) ++ zip (Split.Xtest X) (Split.Ytest Y)
  = zip X Y.
Proof.
  intros Hl.
  unfold Split.Xtrain, Split.Xtest, Split.Ytrain, Split.Ytest.
  unfold Py.slice_until_last, Py.slice_from_last.
  rewrite length_zip_with, <-Hl, Nat.min_id.
  rewrite <-zip_with_take, <-zip_with_drop.
  split; [done|]. split; [done|].
  split; [rewrite !length_take; lia|].
  split; [rewrite !length_drop; lia|].
  apply take_drop.
Qed.

Lemma split_keeps_rows_and_labels_together_witness :
  length (seq 0 1002) = length (seq 5 1002) ∧
  zip (Split.Xtrain (seq 0 1002)) (Split.Ytrain (seq 5 1002)) = [(0, 5); (1, 6)].
Proof.
  assert (length (seq 0 1002) = length (seq 5 1002)) as Hl
    by (by rewrite !length_seq).
  split; [exact Hl|].
  rewrite (proj1 (split_keeps_rows_and_labels_together
                    (seq 0 1002) (seq 5 1002) Hl)).
  unfold Split.Xtrain, Py.slice_until_last.
  rewrite length_zip_with, !length_seq. reflexivity.
Defined.

(** ** The history of the Theano loop *)


Section TotalLoop.
Context {X Y St : Type} `{Rn : Rng}.
Variable c : schedule.
Variable train : batch X Y → St → option (unit * St).
Variable get_prediction : batch X Y → St → option ((R * list Z) * St).
Variables (Xtest : list X) (Ytest_ind : list Y) (Ytest : list Z).
Variable Inv : St → Prop.
Hypothesis Hp : print_period c ≠ 0.
Hypothesis Htrain : ∀ b s, Inv s → ∃ s', train b s = Some (tt, s') ∧ Inv s'.
Hypothesis Hro : TheanoLoop.read_only get_prediction.

#[local] Abbreviation body :=
  (TheanoLoop.batch_body c train get_prediction Xtest Ytest_ind Ytest).






End TotalLoop.



(** ** Rows and labels through the epochs *)

Lemma arrays_at_pairs `{Rn : Rng} (HR : RngLaws Rn) {X Y}
    (Xs : list X) (Ys : list Y) i :
  length Ys = length Xs →
  zip (TheanoLoop.arrays_at Xs Ys i).1 (TheanoLoop.arrays_at Xs Ys i).2
  ≡ₚ zip Xs Ys.
Proof.
  intros HY. induction i as [|i IH]; cbn [TheanoLoop.arrays_at].
  - by destruct (sklearn_shuffle_perm X Y 0 Xs Ys (eq_sym HY)) as (_ & _ & H).
  - destruct (arrays_at_length HR Xs Ys i HY) as [H1 H2].
    destruct (TheanoLoop.arrays_at Xs Ys i) as [Xi Yi]. simpl in *.
    destruct (sklearn_shuffle_perm X Y (S i) Xi Yi ltac:(congruence))
      as (_ & _ & H).
    by rewrite H.
Qed.

Lemma minibatch_pairs {X Y} c (Xs : list X) (Ys : list Y) j :
  zip (TheanoLoop.minibatch c Xs Ys j).1 (TheanoLoop.minibatch c Xs Ys j).2
  ⊆ zip Xs Ys.
Proof.
  unfold TheanoLoop.minibatch, Py.slice. cbn [fst snd].
  rewrite <-zip_with_take, <-zip_with_drop.
  etransitivity; [apply subseteq_take | apply subseteq_drop].
Qed.

Lemma elem_of_concat {A} (x : A) (ls : list (list A)) :
  x ∈ concat ls ↔ ∃ l, l ∈ ls ∧ x ∈ l.
Proof.
  rewrite list_elem_of_In, in_concat. split.
  - intros (l & Hl & Hx). exists l. by rewrite !list_elem_of_In.
  - intros (l & Hl & Hx). exists l. by rewrite <-!list_elem_of_In.
Qed.

Lemma length_concat_uniform {A B} (f : A → list B) (l : list A) n :
  (∀ a, length (f a) = n) → length (concat (map f l)) = length l * n.
Proof.
  intros Hf. induction l as [|a l IH]; [done|].
  cbn [map concat length]. rewrite length_app, Hf, IH. lia.
Qed.

(** X12. Through the whole loop of the Theano notebook, [train] is called
    [max_iter * (N / batch_sz)] times (no call for a [max_iter] that is not
    positive), every time on [batch_sz] rows of features and as many rows of
    the indicator matrix, and row [k] of the features of a batch is paired
    with row [k] of its indicator rows as in the training set before the
    loop: reshuffling at every epoch never gives a row the label of another
    one. *)
Theorem every_trained_pair_is_an_original_pair `{Rn : Rng} (HR : RngLaws Rn)
    {X Y} (c : schedule) (Xs : list X) (Ys : list Y) :
  length Ys = length Xs → batch_sz c ≠ 0 → print_period c ≠ 0 →
  ∃ st,
    TheanoLoop.fit c TheanoLoop.record_train TheanoLoop.record_get_prediction
      [] [] [] Xs Ys [] = Some st ∧
    length (TheanoLoop.vars st)
    = Z.to_nat (max_iter c) * (length Xs / batch_sz c) ∧
    ∀ b, b ∈ TheanoLoop.vars st →
      length b.1 = batch_sz c ∧ length b.2 = batch_sz c ∧
      ∀ xy, xy ∈ zip b.1 b.2 → xy ∈ zip Xs Ys.
Proof.
  intros HY HB Hp.
  destruct (fit_trained_batches c Xs Ys HB Hp) as (st & Hst & Hv).
  exists st. split; [done|]. rewrite Hv. split.
  - rewrite (length_concat_uniform _ _ (length Xs / batch_sz c))
      by (intros i; by rewrite length_map, length_seq).
    unfold Py.range. by rewrite length_seq.
  - intros b (bs & (i & -> & _)%list_elem_of_fmap & Hb)%elem_of_concat.
    apply list_elem_of_fmap in Hb as (j & -> & Hj%elem_of_seq).
    destruct (arrays_at_length HR Xs Ys i HY) as [H1 H2].
    split; [apply slice_whole_batch; rewrite H1; lia|].
    split; [apply slice_whole_batch; rewrite H2; lia|].
    intros xy Hxy. rewrite <-(arrays_at_pairs HR Xs Ys i HY).
    by apply (minibatch_pairs c _ _ j).
Qed.

Lemma every_trained_pair_is_an_original_pair_witness :
  RngLaws reversing_rng ∧
  ∃ st,
    TheanoLoop.fit (H:=reversing_rng) (Schedule 3 10 2)
      TheanoLoop.record_train TheanoLoop.record_get_prediction
      [] [] [] [0; 1; 2; 3; 4] [5; 6; 7; 8; 9] [] = Some st ∧
    length (TheanoLoop.vars st) = 6.
Proof.
  split; [exact reversing_rng_laws|].
  destruct (every_trained_pair_is_an_original_pair (Rn:=reversing_rng)
              reversing_rng_laws (Schedule 3 10 2)
              [0; 1; 2; 3; 4] [5; 6; 7; 8; 9] eq_refl
              ltac:(simpl; lia) ltac:(simpl; lia)) as (st & Hst & Hl & _).
  exists st. split; [exact Hst|]. rewrite Hl. reflexivity.
Defined.

(** ** Divisions by zero in the loop *)

Lemma batch_body_zero_period {X Y St} (c : schedule)
    (train : batch X Y → St → option (unit * St))
    (get_prediction : batch X Y → St → option ((R * list Z) * St))
    (Xtest : list X) (Ytest_ind : list Y) (Ytest : list Z) i j st :
  print_period c = 0 →
  TheanoLoop.batch_body c train get_prediction Xtest Ytest_ind Ytest i j st
  = None.
Proof.
  intros Hp. unfold TheanoLoop.batch_body.
  destruct (TheanoLoop.minibatch c (TheanoLoop.Xtrain st)
              (TheanoLoop.Ytrain_ind st) j) as [Xb Yb].
  destruct (train (Xb, Yb) (TheanoLoop.vars st)) as [[[] s1]|]; [|done].
  cbn [mbind option_bind]. unfold Py.mod_. by rewrite decide_True.
Qed.

(** X13. With [batch_sz = 0] the notebook fails at [n_batches = N /
    batch_sz], before the loop. With [print_period = 0] the first pass
    through the body of the loop fails at [j % print_period], after the first
    call of [train], whatever [train] and [get_prediction] do: that is as
    soon as there is one epoch and one whole batch. *)
Theorem zero_batch_size_or_period_raises {X Y St} `{Rn : Rng} (c : schedule)
    (train : batch X Y → St → option (unit * St))
    (get_prediction : batch X Y → St → option ((R * list Z) * St))
    (Xtest : list X) (Ytest_ind : list Y) (Ytest : list Z)
    (Xtrain0 : list X) (Ytrain_ind0 : list Y) (s0 : St) :
  (batch_sz c = 0 →
   TheanoLoop.fit c train get_prediction Xtest Ytest_ind Ytest
     Xtrain0 Ytrain_ind0 s0 = None) ∧
  (print_period c = 0 → 0 < batch_sz c ≤ length Xtrain0 →
   (0 < max_iter c)%Z →
   TheanoLoop.fit c train get_prediction Xtest Ytest_ind Ytest
     Xtrain0 Ytrain_ind0 s0 = None).
Proof.
  split.
  - intros HB. unfold TheanoLoop.fit. by rewrite HB.
  - intros Hp HB Hm. unfold TheanoLoop.fit.
    destruct (int_truediv (length Xtrain0) (batch_sz c) ltac:(lia))
      as (q & -> & Hq).
    cbn [mbind option_bind].
    assert (∃ n, Py.range (max_iter c) = 0 :: seq 1 n) as [n ->].
    { unfold Py.range. destruct (Z.to_nat (max_iter c)) as [|n] eqn:E; [lia|].
      by exists n. }
    assert (∃ m, Py.range (Py.int q) = 0 :: seq 1 m) as [m Hm'].
    { rewrite Hq, range_of_nat.
      destruct (length Xtrain0 / batch_sz c) as [|m] eqn:E.
      - apply Nat.div_small_iff in E; lia.
      - by exists m. }
    cbn [Py.for_each].
    assert (TheanoLoop.epoch c train get_prediction Xtest Ytest_ind Ytest q 0
              (TheanoLoop.FitState Xtrain0 Ytrain_ind0 s0 [] []) = None) as ->;
      [|done].
    unfold TheanoLoop.epoch, TheanoLoop.batches_loop.
    rewrite Hm'. cbn [Py.for_each].
    by rewrite batch_body_zero_period.
Qed.

Lemma zero_batch_size_or_period_raises_witness :
  TheanoLoop.fit (H:=reversing_rng) (Schedule 1 10 0)
    (λ (_ : batch nat nat) (s : nat), Some (tt, s))
    (λ _ s, Some ((0%R, []), s)) [] [] [] [1; 2] [1; 2] 0 = None ∧
  TheanoLoop.fit (H:=reversing_rng) (Schedule 1 0 2)
    (λ (_ : batch nat nat) (s : nat), Some (tt, s))
    (λ _ s, Some ((0%R, []), s)) [] [] [] [1; 2] [1; 2] 0 = None.
Proof.
  split.
  - apply (proj1 (zero_batch_size_or_period_raises (Rn:=reversing_rng)
                    (Schedule 1 10 0) _ _ [] [] [] [1; 2] [1; 2] 0)).
    reflexivity.
  - apply (proj2 (zero_batch_size_or_period_raises (Rn:=reversing_rng)
                    (Schedule 1 0 2) _ _ [] [] [] [1; 2] [1; 2] 0)).
    + reflexivity.
    + simpl. lia.
    + simpl. lia.
Defined.

(** ** More on the TensorFlow notebook *)

Lemma minibatch_labels {X Y} c (Xs : list X) (Ys : list Y) n :
  concat ((map (TheanoLoop.minibatch c Xs Ys) (seq 0 n)).*2)
  = take (n * batch_sz c) Ys.
Proof.
  rewrite <-concat_slices. f_equal.
  rewrite <-list_fmap_compose. done.
Qed.

(** X14. When the size of the holdout set is a multiple of the batch size
    (as 1000 is of 500) the evaluation feeds every holdout row once, row [i]
    as row [i mod batch_sz] of batch [i / batch_sz], and the prediction array
    is the predictions of the batches one after the other, with no entry left
    at its initial 0. When the holdout set is smaller than one batch nothing
    is fed: the cost is 0 and every prediction is 0. *)
Theorem holdout_evaluation_is_exact_on_whole_batches {X Y St} (c : schedule)
    (cost_op : batch X Y → St → R) (predict_op : list X → St → list Z)
    (Xtest : list X) (Ytest_ind : list Y) (Ytest : list Z) (s : St) :
  0 < batch_sz c →
  length Ytest_ind = length Xtest →
  (∀ xs, length (predict_op xs s) = length xs) →
  let N := length Xtest in
  let B := batch_sz c in
  let fed := map (TheanoLoop.minibatch c Xtest Ytest_ind) (seq 0 (N / B)) in
  (N mod B = 0 →
   ∃ prediction,
     TensorFlow.evaluate c cost_op predict_op Xtest Ytest_ind Ytest s
     = Some (foldl (λ acc b, (acc + cost_op b s)%R) 0%R fed, prediction,
             error_rate prediction Ytest) ∧
     prediction = concat (map (λ b : batch X Y, predict_op b.1 s) fed) ∧
     length prediction = N ∧
     concat (fed.*1) = Xtest ∧
     concat (fed.*2) = Ytest_ind ∧
     ∀ i, i < N →
       ∃ b, fed !! (i / B) = Some b ∧ b.1 !! (i mod B) = Xtest !! i) ∧
  (N < B →
   TensorFlow.evaluate c cost_op predict_op Xtest Ytest_ind Ytest s
   = Some (0%R, replicate N 0%Z, error_rate (replicate N 0%Z) Ytest)).
Proof.
  intros HB HY Hpred N B fed.
  assert (B ≠ 0) as HB0 by (unfold B; lia).
  assert (∀ n, n = N / B →
            TensorFlow.evaluate c cost_op predict_op Xtest Ytest_ind Ytest s
            = Some (foldl (λ acc b, (acc + cost_op b s)%R) 0%R
                      (map (TheanoLoop.minibatch c Xtest Ytest_ind) (seq 0 n)),
                    concat (map (λ b : batch X Y, predict_op b.1 s)
                              (map (TheanoLoop.minibatch c Xtest Ytest_ind)
                                   (seq 0 n)))
                    ++ replicate (N - n * B) 0%Z,
                    error_rate
                      (concat (map (λ b : batch X Y, predict_op b.1 s)
                                 (map (TheanoLoop.minibatch c Xtest Ytest_ind)
                                      (seq 0 n)))
                       ++ replicate (N - n * B) 0%Z) Ytest)) as Hev.
  { intros n ->. unfold TensorFlow.evaluate.
    destruct (int_truediv N B HB0) as (q & Hq & Hi). fold N.
    unfold B in Hq. rewrite Hq. cbn [mbind option_bind].
    rewrite Hi, range_of_nat,
      (test_loop c cost_op predict_op Xtest Ytest_ind s) by done.
    done. }
  split.
  - intros Hmod.
    assert (N / B * B = N) as Hall by (rewrite whole_batches_rows; lia).
    eexists. split.
    { rewrite (Hev (N / B) eq_refl), Hall, Nat.sub_diag. cbn [replicate].
      by rewrite app_nil_r. }
    split; [done|]. split.
    { unfold fed.
      rewrite (predictions_length c predict_op Xtest Ytest_ind s HY Hpred)
        by done.
      done. }
    split; [unfold fed; rewrite minibatch_rows; fold B; rewrite Hall;
            by apply take_ge|].
    split; [unfold fed; rewrite minibatch_labels; fold B; rewrite Hall;
            apply take_ge; rewrite HY; done|].
    intros i Hi.
    assert (i / B < N / B) as Hq.
    { apply Nat.Div0.div_lt_upper_bound. rewrite Nat.mul_comm, Hall. done. }
    eexists. split; [unfold fed; by apply minibatch_lookup|].
    cbn [fst]. fold B. rewrite slice_take_drop, lookup_take_lt, lookup_drop
      by (by apply Nat.mod_upper_bound).
    f_equal. pose proof (Nat.div_mod_eq i B). lia.
  - intros Hsmall.
    rewrite (Hev 0); [|symmetry; by apply Nat.div_small].
    cbn [seq map concat foldl app]. by rewrite Nat.sub_0_r.
Qed.

Lemma holdout_evaluation_is_exact_on_whole_batches_witness :
  0 < batch_sz (Schedule 1 10 2) ∧
  ∃ prediction,
    TensorFlow.evaluate (Schedule 1 10 2) (λ _ _, 1%R)
      (λ xs (_ : unit), map (λ x, Z.of_nat x + 1)%Z xs)
      [0; 1; 2; 3] [5; 6; 7; 8] [1; 2; 0; 0]%Z tt
    = Some (foldl (λ acc (b : batch nat nat), (acc + 1)%R) 0%R
              [([0; 1], [5; 6]); ([2; 3], [7; 8])],
            prediction, error_rate prediction [1; 2; 0; 0]%Z) ∧
    prediction = [1; 2; 3; 4]%Z.
Proof.
  split; [simpl; lia|].
  destruct (proj1 (holdout_evaluation_is_exact_on_whole_batches
              (Schedule 1 10 2) (λ _ _, 1%R)
              (λ xs (_ : unit), map (λ x, Z.of_nat x + 1)%Z xs)
              [0; 1; 2; 3] [5; 6; 7; 8] [1; 2; 0; 0]%Z tt
              ltac:(simpl; lia) eq_refl
              ltac:(intros xs; apply length_map)) eq_refl)
    as (prediction & He & Hp & _).
  exists prediction. split; [exact He|exact Hp].
Defined.

Section TensorFlowFit.
Context {X Y : Type}.
Variable c : schedule.
Variable cost_op : batch X Y → list (batch X Y) → R.
Variable predict_op : list X → list (batch X Y) → list Z.
Variables (Xs : list X) (Ys : list Y).
Variables (Xtest : list X) (Ytest_ind : list Y) (Ytest : list Z).
Hypothesis HB : batch_sz c ≠ 0.
Hypothesis Hp : print_period c ≠ 0.
Hypothesis HY : length Ys = length Xs.
Hypothesis HT : length Ytest_ind = length Xtest.
Hypothesis Hpred : ∀ xs s, length (predict_op xs s) = length xs.

#[local] Abbreviation log_body :=
  (TensorFlow.batch_body c (λ (b : batch X Y) log, log ++ [b])
     cost_op predict_op Xs Ys Xtest Ytest_ind Ytest).

Lemma evaluate_total s :
  is_Some (TensorFlow.evaluate c cost_op predict_op Xtest Ytest_ind Ytest s).
Proof.
  unfold TensorFlow.evaluate.
  destruct (int_truediv (length Xtest) (batch_sz c) HB) as (q & -> & Hi).
  cbn [mbind option_bind].
  rewrite Hi, range_of_nat,
    (test_loop c cost_op predict_op Xtest Ytest_ind s) by done.
  by eexists.
Qed.

Lemma log_body_whole i j st :
  j < length Xs / batch_sz c →
  ∃ l o, log_body i j st
         = Some (TensorFlow.FitState
                   (TensorFlow.vars st ++ [TheanoLoop.minibatch c Xs Ys j]) l o).
Proof.
  intros Hj. unfold TensorFlow.batch_body.
  rewrite decide_True by by apply slice_whole_batch.
  unfold TensorFlow.run_train. simpl.
  rewrite decide_True
    by (split; apply slice_whole_batch; by rewrite ?HY).
  simpl. unfold Py.mod_. rewrite decide_False by done. simpl.
  destruct (decide (j mod print_period c = 0)); [|by do 2 eexists].
  destruct (evaluate_total
              (TensorFlow.vars st ++ [TheanoLoop.minibatch c Xs Ys j]))
    as [[[tc pr] err] He].
  unfold TheanoLoop.minibatch in He. rewrite He. simpl. by do 2 eexists.
Qed.

Lemma log_epoch i js st :
  Forall (λ j, j < length Xs / batch_sz c) js →
  ∃ l o, Py.for_each (log_body i) js st
         = Some (TensorFlow.FitState
                   (TensorFlow.vars st ++ map (TheanoLoop.minibatch c Xs Ys) js)
                   l o).
Proof.
  revert st. induction js as [|j js IH]; intros st Hjs.
  - simpl. rewrite app_nil_r. destruct st. by do 2 eexists.
  - apply Forall_cons in Hjs as [Hj Hjs]. simpl.
    destruct (log_body_whole i j st Hj) as (l & o & ->). simpl.
    destruct (IH (TensorFlow.FitState
                    (TensorFlow.vars st ++ [TheanoLoop.minibatch c Xs Ys j]) l o)
                 Hjs) as (l' & o' & ->).
    simpl. rewrite <-app_assoc. by do 2 eexists.
Qed.

Lemma log_epochs ks js st :
  Forall (λ j, j < length Xs / batch_sz c) js →
  ∃ l o, Py.for_each (λ i, Py.for_each (log_body i) js) ks st
         = Some (TensorFlow.FitState
                   (TensorFlow.vars st
                    ++ concat (replicate (length ks)
                                 (map (TheanoLoop.minibatch c Xs Ys) js)))
                   l o).
Proof.
  intros Hjs. revert st. induction ks as [|i ks IH]; intros st.
  - simpl. rewrite app_nil_r. destruct st. by do 2 eexists.
  - cbn [Py.for_each]. destruct (log_epoch i js st Hjs) as (l & o & ->).
    cbn [mbind option_bind].
    destruct (IH (TensorFlow.FitState
                    (TensorFlow.vars st
                     ++ map (TheanoLoop.minibatch c Xs Ys) js) l o))
      as (l' & o' & ->).
    cbn [TensorFlow.vars length replicate concat].
    rewrite <-app_assoc. by do 2 eexists.
Qed.

End TensorFlowFit.

(** X15. The loop of the TensorFlow notebook never reshuffles: when rows and
    labels have the same length, every one of its [max_iter] epochs calls
    [train_op] on the same [N / batch_sz] slices of the training set in the
    same order, whatever the cost and the predictions are; the guard of the
    body never skips one of them. *)
Theorem tensorflow_epochs_repeat_the_same_batches {X Y} (c : schedule)
    (cost_op : batch X Y → list (batch X Y) → R)
    (predict_op : list X → list (batch X Y) → list Z)
    (Xs : list X) (Ys : list Y)
    (Xtest : list X) (Ytest_ind : list Y) (Ytest : list Z) :
  batch_sz c ≠ 0 → print_period c ≠ 0 →
  length Ys = length Xs → length Ytest_ind = length Xtest →
  (∀ xs s, length (predict_op xs s) = length xs) →
  ∃ st,
    TensorFlow.fit c (λ (b : batch X Y) log, log ++ [b]) cost_op predict_op
      Xs Ys Xtest Ytest_ind Ytest [] = Some st ∧
    TensorFlow.vars st
    = concat (replicate (Z.to_nat (max_iter c))
                (map (TheanoLoop.minibatch c Xs Ys)
                     (seq 0 (length Xs / batch_sz c)))).
Proof.
  intros HB Hp HY HT Hpred. unfold TensorFlow.fit.
  destruct (int_truediv (length Xs) (batch_sz c) HB) as (q & -> & Hq).
  cbn [mbind option_bind]. rewrite Hq, range_of_nat.
  assert (Py.int (inject_Z (max_iter c)) = max_iter c) as ->
    by (unfold Py.int; simpl; apply Z.quot_1_r).
  destruct (log_epochs c cost_op predict_op Xs Ys Xtest Ytest_ind Ytest
              HB Hp HY HT Hpred (Py.range (max_iter c))
              (seq 0 (length Xs / batch_sz c)) (TensorFlow.FitState [] [] []))
    as (l & o & ->).
  { apply Forall_forall. intros j Hj%elem_of_seq. lia. }
  eexists. split; [done|]. cbn [TensorFlow.vars app].
  unfold Py.range. by rewrite length_seq.
Qed.

Lemma tensorflow_epochs_repeat_the_same_batches_witness :
  batch_sz (Schedule 2 10 2) ≠ 0 ∧ print_period (Schedule 2 10 2) ≠ 0 ∧
  ∃ st,
    TensorFlow.fit (Schedule 2 10 2)
      (λ (b : batch nat nat) log, log ++ [b]) (λ _ _, 1%R)
      (λ xs _, map (λ x, Z.of_nat x) xs)
      [0; 1; 2; 3; 4] [5; 6; 7; 8; 9] [0; 1] [5; 6] [0; 1]%Z [] = Some st ∧
    TensorFlow.vars st
    = [([0; 1], [5; 6]); ([2; 3], [7; 8]); ([0; 1], [5; 6]); ([2; 3], [7; 8])].
Proof.
  split; [simpl; lia|]. split; [simpl; lia|].
  exact (tensorflow_epochs_repeat_the_same_batches (Schedule 2 10 2)
           (λ _ _, 1%R) (λ xs _, map (λ x, Z.of_nat x) xs)
           [0; 1; 2; 3; 4] [5; 6; 7; 8; 9] [0; 1] [5; 6] [0; 1]%Z
           ltac:(simpl; lia) ltac:(simpl; lia) eq_refl eq_refl
           ltac:(intros; apply length_map)).
Defined.

(** ** Initial weights *)

Section InitFacts.
Open Scope R_scope.

Lemma np_prod_pos (l : list R) : Forall (λ x, 0 < x) l → 0 < np_prod l.
Proof.
  induction 1 as [|x l Hx _ IH]; simpl; [lra|].
  by apply Rmult_lt_0_compat.
Qed.

Lemma INR_all_pos (l : list nat) :
  Forall (λ d, (0 < d)%nat) l → Forall (λ x, 0 < x) (map INR l).
Proof.
  intros Hl. apply Forall_map. eapply Forall_impl; [exact Hl|].
  intros d Hd. simpl. by apply lt_0_INR.
Qed.

Lemma fan_in_plus_fan_out_pos (sh pz : list nat) :
  sh ≠ [] →
  Forall (λ d, (0 < d)%nat) sh → Forall (λ d, (0 < d)%nat) pz →
  ∃ fan, fan_in_plus_fan_out sh pz = Some fan ∧ 0 < fan.
Proof.
  intros Hne Hsh Hpz. destruct sh as [|s0 sh]; [done|].
  unfold fan_in_plus_fan_out. cbn [lookup list_lookup mbind option_bind].
  eexists. split; [done|].
  apply Forall_cons in Hsh as [Hs0 Hsh].
  assert (0 < np_prod (map INR (drop 1 (s0 :: sh)))) as H1.
  { apply np_prod_pos, INR_all_pos. by cbn [drop]. }
  assert (0 < np_prod (map INR pz)) as HP by by apply np_prod_pos, INR_all_pos.
  assert (0 < np_prod (map (λ d, INR d / np_prod (map INR pz))
                           (drop 2 (s0 :: sh)))) as H2.
  { apply np_prod_pos, Forall_map.
    eapply Forall_impl; [apply Forall_drop; constructor; eassumption|].
    intros d Hd. simpl. apply Rdiv_lt_0_compat; [by apply lt_0_INR|done]. }
  apply lt_0_INR in Hs0.
  pose proof (Rmult_lt_0_compat _ _ Hs0 H2). lra.
Qed.

Lemma ones_randn_laws : RandnLaws ones_randn.
Proof. constructor. intros k sh. simpl. by rewrite length_replicate. Qed.

Lemma init_dense_wf `{D : Randn} (HD : RandnLaws D) k r c :
  wf (init_dense k r c) ∧ shape (init_dense k r c) = [r; c].
Proof.
  split; [|done]. unfold wf, init_dense. cbn [data shape].
  by rewrite length_map, np_random_randn_length.
Qed.

Lemma init_filter_wf `{D : Randn} (HD : RandnLaws D) k sh pz t :
  init_filter k sh pz = Some t → wf t ∧ shape t = sh.
Proof.
  unfold init_filter. destruct (fan_in_plus_fan_out sh pz); [|done].
  intros [= <-]. split; [|done]. unfold wf. cbn [data shape].
  by rewrite length_map, np_random_randn_length.
Qed.

End InitFacts.

(** X16. For a shape that is not empty, with positive dimensions and a pool
    of positive sizes, the sum [init_filter] takes the square root of is
    positive, so that the draw is divided by a positive number; the result has
    the shape that was asked for and one entry per position. On the empty
    shape [shape[0]] raises. *)
Theorem init_filter_divides_by_a_positive_number `{D : Randn} (k : nat)
    (sh pz : list nat) :
  RandnLaws D →
  sh ≠ [] →
  Forall (λ d, 0 < d) sh → Forall (λ d, 0 < d) pz →
  (∃ fan t,
     fan_in_plus_fan_out sh pz = Some fan ∧ (0 < sqrt fan)%R ∧
     init_filter k sh pz = Some t ∧
     shape t = sh ∧ wf t ∧
     data t = map (λ x, x / sqrt fan)%R (np_random_randn k sh)) ∧
  init_filter k [] pz = None.
Proof.
  intros HD Hne Hsh Hpz. split; [|done].
  destruct (fan_in_plus_fan_out_pos sh pz Hne Hsh Hpz) as (fan & Hfan & Hpos).
  exists fan. eexists. split; [done|]. split; [by apply sqrt_lt_R0|].
  unfold init_filter. rewrite Hfan. cbn [mbind option_bind].
  split; [done|]. split; [done|]. split; [|done].
  unfold wf. cbn [data shape]. by rewrite length_map, np_random_randn_length.
Qed.

Lemma init_filter_divides_by_a_positive_number_witness :
  (∃ fan t,
     fan_in_plus_fan_out [2; 1; 3; 3] poolsz = Some fan ∧ (0 < sqrt fan)%R ∧
     init_filter (H:=ones_randn) 0 [2; 1; 3; 3] poolsz = Some t ∧
     shape t = [2; 1; 3; 3] ∧ wf t ∧
     data t = map (λ x, x / sqrt fan)%R
                (np_random_randn (Randn:=ones_randn) 0 [2; 1; 3; 3])) ∧
  init_filter (H:=ones_randn) 0 [] poolsz = None.
Proof.
  apply (init_filter_divides_by_a_positive_number (D:=ones_randn) 0
           [2; 1; 3; 3] poolsz ones_randn_laws).
  - done.
  - repeat constructor.
  - repeat constructor.
Defined.

(** X17. For a filter with [a] feature maps, [b] input maps and a [c] x [d]
    window the sum under the square root is
    [b*c*d + a * (c / P) * (d / P)] with [P = np.prod(poolsz)]: the division
    is of each entry of the window, so that the product of the pool sizes
    enters squared. The TensorFlow notebook, whose filters are laid out as
    [(c, d, b, a)], computes the same number. *)
Theorem init_filter_fan_of_both_layouts (a b c d : nat) (pz : list nat) :
  fan_in_plus_fan_out [a; b; c; d] pz
  = Some (INR (b * c * d)
          + INR a * (INR c / np_prod (map INR pz))
                  * (INR d / np_prod (map INR pz)))%R ∧
  fan_in_plus_fan_out_tf [c; d; b; a] pz
  = fan_in_plus_fan_out [a; b; c; d] pz.
Proof.
  unfold fan_in_plus_fan_out, fan_in_plus_fan_out_tf.
  cbn [lookup list_lookup last length Nat.sub take drop map np_prod foldr
       mbind option_bind].
  split; f_equal; rewrite ?mult_INR; ring.
Qed.

(** ** The initial store of the Theano notebook *)

Lemma notebook_weights_wf `{D : Randn} (HD : RandnLaws D) :
  ∃ w, notebook_weights = Some w ∧
       shape (W1_init w) = W1_shape ∧ shape (W2_init w) = W2_shape ∧
       shape (W3_init w) = [hd 0 W2_shape * 4 * 4; M] ∧
       shape (W4_init w) = [M; K] ∧
       wf (W1_init w) ∧ wf (W2_init w) ∧ wf (W3_init w) ∧ wf (W4_init w).
Proof.
  unfold notebook_weights.
  destruct (fan_in_plus_fan_out_pos W1_shape poolsz) as (f1 & Hf1 & _);
    [done|repeat constructor..|].
  destruct (fan_in_plus_fan_out_pos W2_shape poolsz) as (f2 & Hf2 & _);
    [done|repeat constructor..|].
  unfold init_filter. rewrite Hf1, Hf2. cbn [mbind option_bind].
  eexists. split; [done|]. cbn [W1_init W2_init W3_init W4_init].
  repeat split; try done;
    unfold wf; cbn [data shape init_dense];
    by rewrite length_map, np_random_randn_length.
Qed.

(** X18. Whatever the random draws are, the initial values of the Theano
    notebook fit together: the four weight matrices have the shapes
    (20, 1, 5, 5), (50, 20, 5, 5), (800, 500) and (500, 10), every momentum
    change starts as zeros of the shape of its parameter, and from this store
    any sequence of calls of [train] goes through without a shape error. *)
Theorem notebook_initial_store_trains `{D : Randn} :
  RandnLaws D →
  ∃ w,
    notebook_weights = Some w ∧
    shape (W1_init w) = [20; 1; 5; 5] ∧ shape (W2_init w) = [50; 20; 5; 5] ∧
    shape (W3_init w) = [800; 500] ∧ shape (W4_init w) = [500; 10] ∧
    well_shaped (initial_store w) ∧
    (∀ θ, θ ∈ params →
       initial_store w (momentum θ) = np_zeros (shape (initial_store w θ))) ∧
    ∀ (X Y : Type) (G : Graph X Y) (h : hyper) (bs : list (batch X Y)),
      GraphLaws G → is_Some (Theano.train_steps h bs (initial_store w)).
Proof.
  intros HD.
  destruct (notebook_weights_wf HD)
    as (w & Hw & S1 & S2 & S3 & S4 & F1 & F2 & F3 & F4).
  exists w. split; [done|]. split; [done|]. split; [done|].
  split; [done|]. split; [done|].
  pose proof (initial_store_well_shaped w F1 F2 F3 F4) as Hws.
  split; [done|]. split.
  - intros θ Hθ. unfold params in Hθ.
    repeat (apply elem_of_cons in Hθ as [->|Hθ]);
      [..|by apply elem_of_nil in Hθ]; reflexivity.
  - intros X Y G h bs HG.
    destruct (train_steps_total h HG bs (initial_store w) Hws) as (s' & -> & _).
    by eexists.
Qed.

Lemma notebook_initial_store_trains_witness :
  ∃ w,
    notebook_weights (H:=ones_randn) = Some w ∧
    shape (W1_init w) = [20; 1; 5; 5] ∧ shape (W2_init w) = [50; 20; 5; 5] ∧
    shape (W3_init w) = [800; 500] ∧ shape (W4_init w) = [500; 10] ∧
    well_shaped (initial_store w) ∧
    (∀ θ, θ ∈ params →
       initial_store w (momentum θ) = np_zeros (shape (initial_store w θ))) ∧
    ∀ (X Y : Type) (G : Graph X Y) (h : hyper) (bs : list (batch X Y)),
      GraphLaws G → is_Some (Theano.train_steps h bs (initial_store w)).
Proof.
  exact (notebook_initial_store_trains (D:=ones_randn) ones_randn_laws).
Defined.

Lemma flat_graph_laws (X Y : Type) (c : R) : GraphLaws (flat_graph X Y c).
Proof.
  constructor.
  - intros h s b θ Hwf. split; [done|]. unfold wf in *. simpl.
    by rewrite length_map.
  - intros s b. simpl. by rewrite length_map.
Qed.

Section FirstStep.
Context {X Y : Type} `{G : Graph X Y} (HG : GraphLaws G) (h : hyper).
Open Scope R_scope.

Lemma zip_zero_change (μ : R) (n : nat) (gs : list R) :
  length gs = n →
  zip_with Rminus (map (Rmult μ) (replicate n 0)) gs = map Ropp gs.
Proof.
  intros <-. induction gs as [|x gs IH]; [done|].
  simpl. f_equal; [ring|done].
Qed.

Lemma zip_plus_opp (θ gs : list R) :
  zip_with Rplus θ (map Ropp gs) = zip_with Rminus θ gs.
Proof.
  revert gs. induction θ as [|x θ IH]; intros [|y gs]; simpl; try done.
  unfold Rminus at 1. f_equal. apply IH.
Qed.

Lemma first_step (s : store) (b : batch X Y) (θ : shared) :
  well_shaped s → θ ∈ params →
  s (momentum θ) = np_zeros (shape (s θ)) →
  ∃ s', Theano.train h b s = Some (tt, s') ∧
        data (s' θ)
        = zip_with Rminus (data (s θ))
            (map (Rmult (lr h)) (data (grad_cost h s b θ))) ∧
        data (s' (momentum θ))
        = map (λ g, - (lr h * g)) (data (grad_cost h s b θ)).
Proof.
  intros Hs Hθ Hz.
  destruct (train_total h HG b s Hs) as (s' & Ht & _).
  exists s'. split; [done|].
  destruct (train_inv h b s s' Ht θ Hθ) as [Hc Ha].
  destruct (Hs θ Hθ) as (Hwf & _ & _).
  destruct (grad_cost_shape h s b θ Hwf) as [Hgs Hgwf].
  unfold Theano.update_change, T.sub in Hc.
  apply elemwise_inv in Hc as [_ Hc].
  unfold T.add in Ha. apply elemwise_inv in Ha as [_ Ha].
  rewrite Ha, Hc, Hz. cbn [data shape T.scal np_zeros].
  rewrite zip_zero_change
    by (rewrite length_map; unfold wf in Hgwf; by rewrite Hgwf, Hgs).
  rewrite zip_plus_opp, map_map. done.
Qed.

End FirstStep.

(** X19. The first call of [train] after the shared variables are created
    is a plain gradient step whatever [mu] is, because every momentum change
    starts as zeros: each parameter becomes [θ - lr * grad], and its momentum
    change becomes [- lr * grad]. *)
Theorem first_train_call_is_a_plain_gradient_step {X Y} `{G : Graph X Y}
    (h : hyper) (w : weights) (b : batch X Y) :
  GraphLaws G →
  wf (W1_init w) → wf (W2_init w) → wf (W3_init w) → wf (W4_init w) →
  ∃ s',
    Theano.train h b (initial_store w) = Some (tt, s') ∧
    ∀ θ, θ ∈ params →
      data (s' θ)
      = zip_with Rminus (data (initial_store w θ))
          (map (Rmult (lr h)) (data (grad_cost h (initial_store w) b θ))) ∧
      data (s' (momentum θ))
      = map (λ g, - (lr h * g))%R (data (grad_cost h (initial_store w) b θ)).
Proof.
  intros HG F1 F2 F3 F4.
  pose proof (initial_store_well_shaped w F1 F2 F3 F4) as Hws.
  destruct (train_total h HG b (initial_store w) Hws) as (s' & Ht & _).
  exists s'. split; [done|]. intros θ Hθ.
  destruct (first_step HG h (initial_store w) b θ Hws Hθ) as (s'' & Ht' & Hd).
  - unfold params in Hθ.
    repeat (apply elem_of_cons in Hθ as [->|Hθ]);
      [..|by apply elem_of_nil in Hθ]; reflexivity.
  - rewrite Ht in Ht'. by injection Ht' as <-.
Qed.

Lemma first_train_call_is_a_plain_gradient_step_witness :
  ∃ s',
    Theano.train (G:=flat_graph nat nat 3) theano_hyper ([5; 6], [7; 8])
      (initial_store sample_weights) = Some (tt, s') ∧
    data (s' W1)
    = [1 - lr theano_hyper * 3; 2 - lr theano_hyper * 3;
       3 - lr theano_hyper * 3; 4 - lr theano_hyper * 3]%R ∧
    data (s' dW1)
    = [- (lr theano_hyper * 3); - (lr theano_hyper * 3);
       - (lr theano_hyper * 3); - (lr theano_hyper * 3)]%R.
Proof.
  destruct (first_train_call_is_a_plain_gradient_step
              (G:=flat_graph nat nat 3) theano_hyper sample_weights
              ([5; 6], [7; 8]) (flat_graph_laws nat nat 3)
              eq_refl eq_refl eq_refl eq_refl) as (s' & Ht & Hs').
  exists s'. split; [exact Ht|].
  destruct (Hs' W1 ltac:(unfold params; by left)) as [H1 H2].
  split; [exact H1 | exact H2].
Defined.

(** ** Momentum over several steps *)

Section MomentumSum.
Context {X Y : Type} `{G : Graph X Y} (HG : GraphLaws G) (h : hyper).
Open Scope R_scope.

Lemma zip_change (μ η : R) (v g : list R) :
  zip_with Rminus (map (Rmult μ) v) (map (Rmult η) g)
  = zip_with (λ vi gi, μ * vi - η * gi) v g.
Proof.
  revert g. induction v as [|x v IH]; intros [|y g]; simpl; try done.
  f_equal. apply IH.
Qed.

Lemma zip_change_steps (μ η : R) (n : nat) (v g : list R) :
  zip_with (λ vi gi, μ ^ n * vi - η * geometric μ n * gi)
    (zip_with (λ vi gi, μ * vi - η * gi) v g) g
  = zip_with (λ vi gi, μ ^ S n * vi - η * geometric μ (S n) * gi) v g.
Proof.
  revert g. induction v as [|x v IH]; intros [|y g]; simpl; try done.
  f_equal; [ring | apply IH].
Qed.

Lemma zip_no_step (η μ : R) (v g : list R) :
  length g = length v →
  v = zip_with (λ vi gi, μ ^ 0 * vi - η * geometric μ 0 * gi) v g.
Proof.
  revert g. induction v as [|x v IH]; intros [|y g] Hl; simpl; try done.
  f_equal; [ring | apply IH; by injection Hl].
Qed.

Lemma momentum_steps (θ : shared) (g : list R)
    (bs : list (batch X Y)) (s : store) :
  θ ∈ params →
  well_shaped s →
  length g = length (data (s (momentum θ))) →
  (∀ k b sk, bs !! k = Some b →
             Theano.train_steps h (take k bs) s = Some sk →
             data (grad_cost h sk b θ) = g) →
  ∃ s', Theano.train_steps h bs s = Some s' ∧
        data (s' (momentum θ))
        = zip_with (λ vi gi, mu h ^ length bs * vi
                             - lr h * geometric (mu h) (length bs) * gi)
            (data (s (momentum θ))) g.
Proof.
  intros Hθ. revert s. unfold Theano.train_steps.
  induction bs as [|b bs IH]; intros s Hs Hlen Hg.
  - exists s. split; [done|]. by apply zip_no_step.
  - cbn [Py.for_each].
    destruct (train_total h HG b s Hs) as (s1 & Ht & Hs1).
    rewrite Ht. cbn [fmap option_fmap option_map mbind option_bind snd].
    destruct (train_inv h b s s1 Ht θ Hθ) as [Hc _].
    unfold Theano.update_change, T.sub in Hc.
    apply elemwise_inv in Hc as [_ Hc].
    assert (data (grad_cost h s b θ) = g) as Hg0 by (by apply (Hg 0%nat b s)).
    assert (data (s1 (momentum θ))
            = zip_with (λ vi gi, mu h * vi - lr h * gi)
                (data (s (momentum θ))) g) as Hv1.
    { rewrite Hc. cbn [data T.scal]. by rewrite Hg0, zip_change. }
    destruct (IH s1 Hs1) as (s' & Hsteps & Hd).
    + rewrite Hv1, length_zip_with. lia.
    + intros k b' sk Hb' Hsk. apply (Hg (S k) b' sk); [done|].
      cbn [take Py.for_each]. rewrite Ht.
      by cbn [fmap option_fmap option_map mbind option_bind snd].
    + exists s'. split; [done|]. rewrite Hd, Hv1. cbn [length].
      apply zip_change_steps.
Qed.

End MomentumSum.

(** X20. When the gradient with respect to a parameter comes out the same
    at every one of [n >= 1] successive calls of [train] (at the store each
    call starts from, on the batch it is given), these calls turn the
    momentum change [v] of the parameter into
    [mu^n * v - lr * (1 + mu + ... + mu^(n-1)) * grad]: the step the parameter
    takes grows like a geometric sum in [mu]. *)
Theorem momentum_change_is_a_geometric_sum {X Y} `{G : Graph X Y}
    (h : hyper) (s0 : store) (θ : shared) (g : list R)
    (bs : list (batch X Y)) :
  GraphLaws G →
  well_shaped s0 →
  θ ∈ params →
  bs ≠ [] →
  (∀ k b sk, bs !! k = Some b →
             Theano.train_steps h (take k bs) s0 = Some sk →
             data (grad_cost h sk b θ) = g) →
  ∃ s', Theano.train_steps h bs s0 = Some s' ∧
        data (s' (momentum θ))
        = zip_with (λ vi gi, mu h ^ length bs * vi
                             - lr h * geometric (mu h) (length bs) * gi)%R
            (data (s0 (momentum θ))) g.
Proof.
  intros HG Hs0 Hθ Hbs Hg.
  apply (momentum_steps HG h θ g bs s0); try done.
  destruct bs as [|b bs]; [done|].
  rewrite <-(Hg 0%nat b s0 eq_refl eq_refl).
  destruct (Hs0 θ Hθ) as (Hwf & Hwm & Hms).
  destruct (grad_cost_shape h s0 b θ Hwf) as [Hgs Hgwf].
  unfold wf in Hgwf, Hwm. by rewrite Hgwf, Hwm, Hgs, Hms.
Qed.

Lemma momentum_change_is_a_geometric_sum_witness :
  ∃ s', Theano.train_steps (G:=flat_graph nat nat 3) theano_hyper
          [([5], [6]); ([7], [8])] example_store = Some s' ∧
        data (s' (momentum W1))
        = [mu theano_hyper ^ 2 * 1
           - lr theano_hyper * geometric (mu theano_hyper) 2 * 3;
           mu theano_hyper ^ 2 * 2
           - lr theano_hyper * geometric (mu theano_hyper) 2 * 3]%R.
Proof.
  apply (momentum_change_is_a_geometric_sum (G:=flat_graph nat nat 3)
           theano_hyper example_store W1 [3%R; 3%R] [([5], [6]); ([7], [8])]
           (flat_graph_laws nat nat 3) example_store_well_shaped).
  - unfold params. by left.
  - discriminate.
  - intros k b sk Hb Hsk. simpl.
    assert (shape (sk W1) = [2]) as Hsh
      by (by rewrite (train_steps_shapes theano_hyper _ _ _ Hsk W1)).
    destruct (train_steps_total theano_hyper (flat_graph_laws nat nat 3)
                (take k [([5], [6]); ([7], [8])]) example_store
                example_store_well_shaped) as (sk' & Hsk' & Hws).
    assert (Some sk' = Some sk) as [= ->]
      by (etrans; [symmetry; exact Hsk'|exact Hsk]).
    destruct (Hws W1 ltac:(unfold params; by left)) as (Hwf & _ & _).
    unfold wf in Hwf. rewrite Hsh in Hwf. simpl in Hwf.
    destruct (data (sk W1)) as [|x [|y [|z l]]]; by simplify_eq/=.
Defined.
